(** * A shallow embedding of the GitHub tools and of the tool-calling loop

    The development follows [github_tool.py] (the three lookup tools and
    their helper [_fetch_merged_prs]) and [app.py] (the registry
    [AVAILABLE_TOOLS] and the loop [handle_tool_call]).

    Python values that reach the code from outside (parsed JSON bodies, the
    arguments chosen by the language model) are kept dynamically typed, as
    [pyval]; every operation the source applies to them is a partial
    function into [result], whose [Raise] branch is a Python exception.
    Text is [string] over the ASCII alphabet. *)

From Stdlib Require Import ZArith List Bool Arith Lia.
From Stdlib Require Import Strings.String Strings.Ascii Numbers.DecimalString.
From Stdlib Require Import Sorting.Permutation.
Import ListNotations.
Open Scope list_scope.
Open Scope string_scope.

(** ** Exceptions and the error monad *)

Module Py.

(** The exception classes the code can meet.  [RequestException] stands for
    the whole hierarchy rooted at [requests.exceptions.RequestException]. *)
Inductive exn_class : Type :=
| RequestException
| TypeError
| AttributeError
| KeyError
| ValueError.

(** An exception: its class and the text [str(e)] gives. *)
Record exn : Type := Exn { exn_cls : exn_class; exn_msg : string }.

Inductive result (A : Type) : Type :=
| Ok (a : A)
| Raise (e : exn).
Arguments Ok {A} a.
Arguments Raise {A} e.

Definition bind {A B} (m : result A) (k : A -> result B) : result B :=
  match m with
  | Ok a => k a
  | Raise e => Raise e
  end.

Definition is_request_exception (e : exn) : bool :=
  match exn_cls e with RequestException => true | _ => false end.

Definition returns {A} (m : result A) : Prop := exists a, m = Ok a.
Definition raises {A} (m : result A) : Prop := exists e, m = Raise e.

(** [mapM f l]: a list comprehension whose element expression can raise;
    the first exception, left to right, ends it. *)
Fixpoint mapM {A B} (f : A -> result B) (l : list A) : result (list B) :=
  match l with
  | [] => Ok []
  | x :: r =>
      match f x with
      | Raise e => Raise e
      | Ok y => match mapM f r with
                | Raise e => Raise e
                | Ok ys => Ok (y :: ys)
                end
      end
  end.

End Py.
Import Py.

Declare Scope py_scope.
Delimit Scope py_scope with py.
Notation "x <- m ;; k" := (bind m (fun x => k))
  (at level 61, m at next level, right associativity) : py_scope.
Open Scope py_scope.

(** ** Text *)

Module Text.

Definition nl : ascii := "010"%char.
Definition NL : string := String nl EmptyString.
Definition dquote : string := String (ascii_of_nat 34) EmptyString.

(** [str(n)] for an integer. *)
Definition dec (n : Z) : string := NilZero.string_of_int (Z.to_int n).

(** [c.lower()] on the ASCII alphabet. *)
Definition lower_ascii (c : ascii) : ascii :=
  let n := nat_of_ascii c in
  if Nat.leb 65 n && Nat.leb n 90 then ascii_of_nat (n + 32) else c.

Fixpoint map_chars (f : ascii -> ascii) (s : string) : string :=
  match s with
  | EmptyString => EmptyString
  | String c r => String (f c) (map_chars f r)
  end.

(** [s.lower()] *)
Definition lower (s : string) : string := map_chars lower_ascii s.

(** [s.replace(a, b)] for single characters [a] and [b]. *)
Definition replace_char (a b : ascii) (s : string) : string :=
  map_chars (fun c => if Ascii.eqb c a then b else c) s.

(** [s.replace(a, t)] for a single character [a] and a string [t]. *)
Fixpoint replace_with (a : ascii) (t : string) (s : string) : string :=
  match s with
  | EmptyString => EmptyString
  | String c r =>
      if Ascii.eqb c a then t ++ replace_with a t r
      else String c (replace_with a t r)
  end.

(** [s.find(c)] for a single character: the first index, if any. *)
Fixpoint find (c : ascii) (s : string) : option nat :=
  match s with
  | EmptyString => None
  | String c' r =>
      if Ascii.eqb c' c then Some 0
      else match find c r with Some i => Some (S i) | None => None end
  end.

(** [s.startswith(p)] *)
Definition startswith (s p : string) : bool := String.prefix p s.

(** [s[:n]] *)
Definition take (n : nat) (s : string) : string := String.substring 0 n s.

(** [s[n:]] *)
Fixpoint drop (n : nat) (s : string) : string :=
  match n, s with
  | O, _ => s
  | S _, EmptyString => EmptyString
  | S n', String _ r => drop n' r
  end.

(** [p in s] for strings: [p] occurs in [s] as a substring. *)
Fixpoint contains (s p : string) : bool :=
  String.prefix p s ||
  match s with
  | EmptyString => false
  | String _ r => contains r p
  end.

(** [s.split(sep)] for a one-character separator: never empty, one more
    piece than there are separators. *)
Fixpoint split (sep : ascii) (s : string) : list string :=
  match s with
  | EmptyString => [EmptyString]
  | String c r =>
      if Ascii.eqb c sep then EmptyString :: split sep r
      else match split sep r with
           | h :: t => String c h :: t
           | [] => [String c EmptyString]
           end
  end.

(** [sep.join(l)] *)
Definition join (sep : string) (l : list string) : string := String.concat sep l.

(** The characters of a string, as Python iterates over it. *)
Fixpoint chars (s : string) : list string :=
  match s with
  | EmptyString => []
  | String c r => String c EmptyString :: chars r
  end.

Definition is_digit (c : ascii) : bool :=
  let n := nat_of_ascii c in Nat.leb 48 n && Nat.leb n 57.

Definition digit_val (c : ascii) : N := N.of_nat (nat_of_ascii c - 48).

(** The value of a string of decimal digits; [None] when a character is
    not a digit or the string is empty. *)
Fixpoint digits_from (acc : N) (s : string) : option N :=
  match s with
  | EmptyString => Some acc
  | String c r => if is_digit c then digits_from (10 * acc + digit_val c)%N r else None
  end.

Definition digits (s : string) : option N :=
  match s with
  | EmptyString => None
  | _ => digits_from 0%N s
  end.

(** An integer in at least [w] decimal digits, zero filled. *)
Definition pad (w : nat) (n : N) : string :=
  let d := dec (Z.of_N n) in
  String.concat "" (repeat "0" (w - String.length d)) ++ d.

End Text.
Import Text.

(** ** Dynamically typed values *)

Module Value.

(** What [response.json()] can produce and what the language model can
    pass as an argument (JSON numbers are integers here). *)
#[local] Set Warnings "-register-all".
Inductive pyval : Type :=
| PNone
| PBool (b : bool)
| PInt (n : Z)
| PStr (s : string)
| PList (l : list pyval)
| PDict (d : list (string * pyval)).

Definition type_name (v : pyval) : string :=
  match v with
  | PNone => "NoneType"
  | PBool _ => "bool"
  | PInt _ => "int"
  | PStr _ => "str"
  | PList _ => "list"
  | PDict _ => "dict"
  end.

(** A dict is an association list in insertion order; a key is looked up
    at its first entry. *)
Fixpoint lookup {A} (k : string) (d : list (string * A)) : option A :=
  match d with
  | [] => None
  | (k', v) :: r => if String.eqb k k' then Some v else lookup k r
  end.

Definition has_key {A} (k : string) (d : list (string * A)) : bool :=
  match lookup k d with Some _ => true | None => false end.

Definition hex_digit (n : nat) : string :=
  String.substring n 1 "0123456789abcdef".

(** One character of [repr(s)], [q] being the quote chosen. *)
Definition repr_char (q : ascii) (c : ascii) : string :=
  let n := nat_of_ascii c in
  if Ascii.eqb c q || Ascii.eqb c "\"%char then String "\"%char (String c "")
  else if Nat.eqb n 9 then "\t"
  else if Nat.eqb n 10 then "\n"
  else if Nat.eqb n 13 then "\r"
  else if Nat.ltb n 32 || Nat.eqb n 127
       then "\x" ++ hex_digit (n / 16) ++ hex_digit (n mod 16)
  else String c "".

Fixpoint repr_chars (q : ascii) (s : string) : string :=
  match s with
  | EmptyString => EmptyString
  | String c r => repr_char q c ++ repr_chars q r
  end.

(** [repr(s)] of a string: single quotes, unless the string holds a single
    quote and no double quote. *)
Definition repr_str (s : string) : string :=
  let q := if contains s "'" && negb (contains s dquote)
           then ascii_of_nat 34 else "'"%char in
  String q (repr_chars q s) ++ String q "".

(** [repr(v)] *)
Fixpoint py_repr (v : pyval) : string :=
  match v with
  | PNone => "None"
  | PBool true => "True"
  | PBool false => "False"
  | PInt n => dec n
  | PStr s => repr_str s
  | PList l => "[" ++ join ", " (map py_repr l) ++ "]"
  | PDict d =>
      "{" ++ join ", " (map (fun kv : string * pyval =>
                              let (k, x) := kv in
                              repr_str k ++ ": " ++ py_repr x) d) ++ "}"
  end.

(** [str(v)], which is what an f-string puts in place of [{v}]. *)
Definition py_str (v : pyval) : string :=
  match v with
  | PStr s => s
  | _ => py_repr v
  end.

(** [bool(v)] *)
Definition truthy (v : pyval) : bool :=
  match v with
  | PNone => false
  | PBool b => b
  | PInt n => negb (Z.eqb n 0)
  | PStr s => negb (String.eqb s "")
  | PList l => match l with [] => false | _ => true end
  | PDict d => match d with [] => false | _ => true end
  end.

Definition no_attribute {A} (v : pyval) (attr : string) : result A :=
  Raise (Exn AttributeError
           ("'" ++ type_name v ++ "' object has no attribute '" ++ attr ++ "'")).

(** [v.get(k, default)] *)
Definition get (v : pyval) (k : string) (default : pyval) : result pyval :=
  match v with
  | PDict d => Ok (match lookup k d with Some x => x | None => default end)
  | _ => no_attribute v "get"
  end.

(** [v[k]] for a string key [k] *)
Definition getitem (v : pyval) (k : string) : result pyval :=
  match v with
  | PDict d =>
      match lookup k d with
      | Some x => Ok x
      | None => Raise (Exn KeyError (repr_str k))
      end
  | PList _ => Raise (Exn TypeError "list indices must be integers or slices, not str")
  | PStr _ => Raise (Exn TypeError "string indices must be integers, not 'str'")
  | _ => Raise (Exn TypeError ("'" ++ type_name v ++ "' object is not subscriptable"))
  end.

(** [v == PStr s] *)
Definition eq_str (v : pyval) (s : string) : bool :=
  match v with
  | PStr t => String.eqb t s
  | _ => false
  end.

(** [k in v] for a string [k]: a key of a dict, an element of a list, a
    substring of a string. *)
Definition py_in (k : string) (v : pyval) : result bool :=
  match v with
  | PDict d => Ok (has_key k d)
  | PList l => Ok (existsb (fun x => eq_str x k) l)
  | PStr s => Ok (contains s k)
  | _ => Raise (Exn TypeError ("argument of type '" ++ type_name v ++ "' is not iterable"))
  end.

(** The elements [for x in v] visits. *)
Definition iterate (v : pyval) : result (list pyval) :=
  match v with
  | PList l => Ok l
  | PDict d => Ok (map (fun kv => PStr (fst kv)) d)
  | PStr s => Ok (map PStr (chars s))
  | _ => Raise (Exn TypeError ("'" ++ type_name v ++ "' object is not iterable"))
  end.

(** [v[:n]] *)
Definition slice_to (n : nat) (v : pyval) : result pyval :=
  match v with
  | PStr s => Ok (PStr (take n s))
  | PList l => Ok (PList (firstn n l))
  | PDict _ => Raise (Exn TypeError "unhashable type: 'slice'")
  | _ => Raise (Exn TypeError ("'" ++ type_name v ++ "' object is not subscriptable"))
  end.

(** The receiver of a [str] method such as [lower] or [replace]: the
    string itself, or the [AttributeError] any other value gives. *)
Definition as_str (attr : string) (v : pyval) : result string :=
  match v with
  | PStr s => Ok s
  | _ => no_attribute v attr
  end.

Definition is_str (v : pyval) : bool :=
  match v with PStr _ => true | _ => false end.

End Value.
Import Value.

(** ** The part of [datetime] the code uses

    [fromisoformat] follows the reference implementation of Python 3.7 to
    3.10 ([YYYY-MM-DD], then optionally one separator character and
    [HH[:MM[:SS[.fff[fff]]]]] with an optional offset [+HH:MM[:SS[.ffffff]]]);
    a number is a run of decimal digits.  Python 3.11 and later accept more
    spellings (a fraction of any length, the basic format, a trailing [Z]),
    which this model refuses.  [strftime] is fixed to the one format the
    code asks for. *)

Module Datetime.

Record datetime : Type := mkDatetime {
  year : N; month : N; day : N;
  hour : N; minute : N; second : N; microsecond : N;
  utcoffset : option (bool * N)   (* the sign is minus; seconds *)
}.

Definition is_leap (y : N) : bool :=
  (N.eqb (y mod 4) 0 && (negb (N.eqb (y mod 100) 0) || N.eqb (y mod 400) 0))%N.

Definition days_in_month (y m : N) : N :=
  (match m with
   | 2 => if is_leap y then 29 else 28
   | 4 | 6 | 9 | 11 => 30
   | _ => 31
   end)%N.

(** Exactly [n] digits at the head of [s]. *)
Definition number (n : nat) (s : string) : option N :=
  let t := take n s in
  if Nat.eqb (String.length t) n then digits t else None.

Definition char_at (i : nat) (s : string) : string := String.substring i 1 s.

(** [_parse_isoformat_date] on the first ten characters. *)
Definition parse_isoformat_date (s : string) : option (N * N * N) :=
  match number 4 s, number 2 (drop 5 s), number 2 (drop 8 s) with
  | Some y, Some m, Some d =>
      if String.eqb (char_at 4 s) "-" && String.eqb (char_at 7 s) "-"
      then Some (y, m, d) else None
  | _, _, _ => None
  end.

(** The loop of [_parse_hh_mm_ss_ff]: up to [S k] two-digit components
    separated by colons; what is left unread comes back with them. *)
Fixpoint parse_components (k : nat) (s : string) : option (list N * string) :=
  match number 2 s with
  | None => None
  | Some v =>
      match drop 2 s, k with
      | EmptyString, _ => Some ([v], EmptyString)
      | rest, O => Some ([v], rest)
      | String c r, S k' =>
          if Ascii.eqb c ":"%char then
            match parse_components k' r with
            | Some (vs, rest) => Some (v :: vs, rest)
            | None => None
            end
          else None
      end
  end.

(** [_parse_hh_mm_ss_ff]: hours, minutes, seconds, microseconds. *)
Definition parse_hh_mm_ss_ff (s : string) : option (N * N * N * N) :=
  match parse_components 2 s with
  | None => None
  | Some (vs, rest) =>
      let h := nth 0 vs 0%N in
      let m := nth 1 vs 0%N in
      let sec := nth 2 vs 0%N in
      match rest with
      | EmptyString => Some (h, m, sec, 0%N)
      | String c frac =>
          if Ascii.eqb c "."%char then
            match String.length frac, digits frac with
            | 3, Some f => Some (h, m, sec, (f * 1000)%N)
            | 6, Some f => Some (h, m, sec, f)
            | _, _ => None
            end
          else None
      end
  end.

(** [_parse_isoformat_time]: the offset starts at the first minus sign, or
    else at the first plus sign. *)
Definition parse_isoformat_time (s : string)
  : option (N * N * N * N * option (bool * N)) :=
  if Nat.ltb (String.length s) 2 then None else
  let tz_pos := match find "-"%char s with
                | Some i => Some (i, true)
                | None => match find "+"%char s with
                          | Some i => Some (i, false)
                          | None => None
                          end
                end in
  match tz_pos with
  | None =>
      match parse_hh_mm_ss_ff s with
      | Some t => Some (t, None)
      | None => None
      end
  | Some (i, minus) =>
      let tzstr := drop (S i) s in
      let n := String.length tzstr in
      match parse_hh_mm_ss_ff (take i s) with
      | None => None
      | Some t =>
          if Nat.eqb n 5 || Nat.eqb n 8 || Nat.eqb n 15 then
            match parse_hh_mm_ss_ff tzstr with
            | Some (h, m, sec, _) =>
                let off := (h * 3600 + m * 60 + sec)%N in
                if N.ltb off 86400 then Some (t, Some (minus, off)) else None
            | None => None
            end
          else None
      end
  end.

Definition invalid_isoformat {A} (s : string) : result A :=
  Raise (Exn ValueError ("Invalid isoformat string: " ++ repr_str s)).

(** The checks of the [datetime] constructor, in its order, with its
    messages: the first field out of range, if any. *)
Definition field_out_of_range (y m d h mi s : N) : option string :=
  if negb (N.leb 1 y && N.leb y 9999)
  then Some ("year " ++ dec (Z.of_N y) ++ " is out of range")
  else if negb (N.leb 1 m && N.leb m 12) then Some "month must be in 1..12"
  else if negb (N.leb 1 d && N.leb d (days_in_month y m))
  then Some "day is out of range for month"
  else if negb (N.ltb h 24) then Some "hour must be in 0..23"
  else if negb (N.ltb mi 60) then Some "minute must be in 0..59"
  else if negb (N.ltb s 60) then Some "second must be in 0..59"
  else None.

(** [datetime.fromisoformat(s)]: the date and the time are parsed first,
    then the constructor checks the fields. *)
Definition fromisoformat (s : string) : result datetime :=
  if Nat.ltb (String.length s) 10 then invalid_isoformat s else
  match parse_isoformat_date (take 10 s) with
  | None => invalid_isoformat s
  | Some (y, m, d) =>
      match (match drop 11 s with
             | EmptyString => Some (0%N, 0%N, 0%N, 0%N, None)
             | tstr => parse_isoformat_time tstr
             end) with
      | None => invalid_isoformat s
      | Some (h, mi, sec, us, tz) =>
          match field_out_of_range y m d h mi sec with
          | Some message => Raise (Exn ValueError message)
          | None => Ok (mkDatetime y m d h mi sec us tz)
          end
      end
  end.

(** [dt.strftime("%Y-%m-%d")], the year in four digits. *)
Definition strftime_Ymd (dt : datetime) : string :=
  pad 4 (year dt) ++ "-" ++ pad 2 (month dt) ++ "-" ++ pad 2 (day dt).

End Datetime.
Import Datetime.

(** ** The outside world: HTTP, the environment, the clock *)

Module Http.

Record Response : Type := mkResponse {
  status_code : Z;
  text : string;
  json : result pyval          (* what [response.json()] does *)
}.

Record Request : Type := mkRequest {
  url : string;
  headers : list (string * string);
  params : option (list (string * pyval))
}.

(** Everything a tool reads from outside: what [requests.get] answers (a
    response, or an exception), [os.getenv], and the text of
    [datetime.now().isoformat()]. *)
Record World : Type := mkWorld {
  requests_get : Request -> result Response;
  getenv : string -> option string;
  now_isoformat : string
}.

End Http.
Import Http.

(** [try: body except <classes>: handler] *)
Definition try_except {A} (body : result A) (catches : exn -> bool)
    (handler : exn -> result A) : result A :=
  match body with
  | Ok a => Ok a
  | Raise e => if catches e then handler e else Raise e
  end.

(** [except Exception] *)
Definition any_exception (e : exn) : bool := true.

(** ** github_tool.py *)

Definition _get_auth_headers (w : World) : list (string * string) :=
  let headers := [("Accept", "application/vnd.github.v3+json")] in
  match getenv w "GITHUB_TOKEN" with
  | Some github_token =>
      if negb (String.eqb github_token "")
      then List.app headers [("Authorization", "token " ++ github_token)]
      else headers
  | None => headers
  end.

Definition _make_api_call (w : World) (url : string)
    (headers : list (string * string))
    (params : option (list (string * pyval))) : result Response :=
  requests_get w (mkRequest url headers params).

(** *** Tool 1 *)

Definition check_latest_release (w : World) (org_name repo_name : string)
  : result string :=
  let api_url := "https://api.github.com/repos/" ++ org_name ++ "/" ++ repo_name
                 ++ "/releases/latest" in
  let headers := _get_auth_headers w in
  try_except
    (response <- _make_api_call w api_url headers None ;;
     if Z.eqb (status_code response) 404 then
       Ok ("ERROR: Repository " ++ org_name ++ "/" ++ repo_name
           ++ " not found or has no releases.")
     else if Z.eqb (status_code response) 403 then
       Ok "ERROR: GitHub API failed with status code 403. Check GITHUB_TOKEN and rate limit."
     else if negb (Z.eqb (status_code response) 200) then
       Ok ("ERROR: GitHub API failed with status code "
           ++ dec (status_code response) ++ ".")
     else
       data <- json response ;;
       version <- get data "tag_name" (PStr "N/A") ;;
       published_at_str <- get data "published_at" (PStr "N/A") ;;
       release_url <- get data "html_url" (PStr "N/A") ;;
       published_date <-
         (if negb (eq_str published_at_str "N/A") then
            s <- as_str "replace" published_at_str ;;
            published_at <- fromisoformat (replace_with "Z" "+00:00" s) ;;
            Ok (strftime_Ymd published_at)
          else Ok "N/A") ;;
       body <- get data "body" (PStr "") ;;
       head <- slice_to 100 body ;;
       flat <- as_str "replace" head ;;
       let body_snippet := replace_char nl " " flat ++ "..." in
       Ok ("SUCCESS: **" ++ org_name ++ "/" ++ repo_name
           ++ "** Latest Release: **" ++ py_str version ++ "** | "
           ++ "Published: " ++ published_date ++ ". "
           ++ "Release URL: " ++ py_str release_url ++ ". "
           ++ "Notes Snippet: " ++ dquote ++ body_snippet ++ dquote))
    is_request_exception
    (fun e => Ok ("TOOL_ERROR: Network or connection issue: " ++ exn_msg e)).

(** *** Tool 2 *)

Definition get_dependency_file (w : World) (org_name repo_name file_path : string)
  : result string :=
  let api_url := "https://api.github.com/repos/" ++ org_name ++ "/" ++ repo_name
                 ++ "/contents/" ++ file_path in
  let headers := [("Accept", "application/vnd.github.v3.raw")] in
  let headers :=
    match getenv w "GITHUB_TOKEN" with
    | Some github_token =>
        if negb (String.eqb github_token "")
        then List.app headers [("Authorization", "token " ++ github_token)]
        else headers
    | None => headers
    end in
  try_except
    (response <- _make_api_call w api_url headers None ;;
     if Z.eqb (status_code response) 404 then
       Ok ("ERROR: File '" ++ file_path ++ "' not found in "
           ++ org_name ++ "/" ++ repo_name ++ ".")
     else if Z.eqb (status_code response) 403 then
       Ok "ERROR: GitHub API failed with status code 403. Check GITHUB_TOKEN and rate limit."
     else if negb (Z.eqb (status_code response) 200) then
       Ok ("ERROR: GitHub API failed with status code "
           ++ dec (status_code response) ++ ".")
     else
       let content_text := text response in
       let lines := split nl content_text in
       let snippet := join NL (firstn 10 lines) in
       Ok ("SUCCESS: Content of `" ++ file_path ++ "`:" ++ NL ++ "```" ++ NL
           ++ snippet ++ NL ++ "```"))
    any_exception
    (fun e => Ok ("TOOL_ERROR: Could not process file content. Error: " ++ exn_msg e)).

(** *** Tool 3 *)

(** The dict [_fetch_merged_prs] builds for each pull request. *)
Record pr : Type := mkPr {
  pr_number : pyval;
  pr_title : pyval;
  pr_labels : list pyval;
  pr_url : pyval
}.

(** The test of the loop: ['pull_request' in item and
    item.get("pull_request", {}).get("merged_at")]. *)
Definition eligible (item : pyval) : result bool :=
  marked <- py_in "pull_request" item ;;
  if marked then
    pull_request <- get item "pull_request" (PDict []) ;;
    merged_at <- get pull_request "merged_at" PNone ;;
    Ok (truthy merged_at)
  else Ok false.

(** The dict display appended to [prs], its entries evaluated in order. *)
Definition pr_of_item (item : pyval) : result pr :=
  number <- getitem item "number" ;;
  title <- getitem item "title" ;;
  labels <- get item "labels" (PList []) ;;
  labels <- iterate labels ;;
  names <- mapM (fun label => getitem label "name") labels ;;
  html_url <- getitem item "html_url" ;;
  Ok (mkPr number title names html_url).

(** [for item in all_closed_items: ...], [prs] being the list built so far. *)
Fixpoint collect_prs (items : list pyval) (prs : list pr) : result (list pr) :=
  match items with
  | [] => Ok prs
  | item :: rest =>
      keep <- eligible item ;;
      if keep then
        p <- pr_of_item item ;;
        collect_prs rest (prs ++ [p])%list
      else collect_prs rest prs
  end.

Definition per_page : Z := 50.

Definition issues_params (published_date : pyval) : list (string * pyval) :=
  [("state", PStr "closed");
   ("sort", PStr "updated");
   ("direction", PStr "desc");
   ("since", published_date);
   ("per_page", PInt per_page)].

Definition _fetch_merged_prs (w : World) (org_name repo_name : string)
    (published_date : pyval) : result (list pr) :=
  let api_url := "https://api.github.com/repos/" ++ org_name ++ "/" ++ repo_name
                 ++ "/issues" in
  let headers := _get_auth_headers w in
  let params := issues_params published_date in
  response <- _make_api_call w api_url headers (Some params) ;;
  if negb (Z.eqb (status_code response) 200) then Ok []
  else
    all_closed_items <- json response ;;
    items <- iterate all_closed_items ;;
    collect_prs items [].

(** The [summary] dict: three keys, in insertion order. *)
Definition summary_t : Type := list (string * list string).

Definition empty_summary : summary_t :=
  [("Bug Fixes", []); ("Enhancements/Features", []); ("Other Changes", [])].

(** [summary[k]] *)
Definition bucket (k : string) (summary : summary_t) : list string :=
  match lookup k summary with Some l => l | None => [] end.

(** [summary[k].append(x)] *)
Fixpoint append_to (k : string) (x : string) (summary : summary_t) : summary_t :=
  match summary with
  | [] => []
  | (k', l) :: r =>
      if String.eqb k k' then (k', (l ++ [x])%list) :: r
      else (k', l) :: append_to k x r
  end.

Definition BUG_KEYWORDS : list string := ["bug"; "fix"; "defect"; "hotfix"].
Definition ENHANCEMENT_KEYWORDS : list string :=
  ["feature"; "enhancement"; "new"; "feat"].

(** [kw in labels_lower] *)
Definition mem (kw : string) (labels_lower : list string) : bool :=
  existsb (String.eqb kw) labels_lower.

(** [any(kw in labels_lower for kw in keywords)] *)
Definition any_in (keywords labels_lower : list string) : bool :=
  existsb (fun kw => mem kw labels_lower) keywords.

(** [f"#{pr['number']}: {pr['title']}"] *)
Definition pr_line (p : pr) : string :=
  "#" ++ py_str (pr_number p) ++ ": " ++ py_str (pr_title p).

(** One turn of the categorization loop. *)
Definition categorize_pr (summary : summary_t) (p : pr) : result summary_t :=
  title <- as_str "lower" (pr_title p) ;;
  let title_lower := lower title in
  labels_lower <- mapM (fun label => l <- as_str "lower" label ;; Ok (lower l))
                       (pr_labels p) ;;
  if any_in BUG_KEYWORDS labels_lower || startswith title_lower "fix" then
    Ok (append_to "Bug Fixes" (pr_line p) summary)
  else if any_in ENHANCEMENT_KEYWORDS labels_lower || startswith title_lower "feat" then
    Ok (append_to "Enhancements/Features" (pr_line p) summary)
  else
    Ok (append_to "Other Changes" (pr_line p) summary).

(** [for pr in all_prs: ...] *)
Fixpoint categorize (all_prs : list pr) (summary : summary_t) : result summary_t :=
  match all_prs with
  | [] => Ok summary
  | p :: rest =>
      summary' <- categorize_pr summary p ;;
      categorize rest summary'
  end.

(** [for category, items in summary.items(): ...] *)
Fixpoint report_sections (summary : summary_t) (output_parts : list string)
  : list string :=
  match summary with
  | [] => output_parts
  | (category, items) :: r =>
      match items with
      | [] => report_sections r output_parts
      | _ =>
          let title := NL ++ "--- " ++ category ++ " ("
                       ++ dec (Z.of_nat (List.length items)) ++ ") ---" in
          report_sections r (List.app (List.app output_parts [title]) items)
      end
  end.

Definition report_header (org_name repo_name tag_name : string) (all_prs : list pr)
  : list string :=
  ["SUCCESS: Analysis for " ++ org_name ++ "/" ++ repo_name
     ++ " release `" ++ tag_name ++ "`:";
   "Total Relevant PRs Found: " ++ dec (Z.of_nat (List.length all_prs))].

Definition get_release_prs (w : World) (org_name repo_name tag_name : string)
  : result string :=
  let release_url := "https://api.github.com/repos/" ++ org_name ++ "/" ++ repo_name
                     ++ "/releases/tags/" ++ tag_name in
  release_response <- _make_api_call w release_url (_get_auth_headers w) None ;;
  if negb (Z.eqb (status_code release_response) 200) then
    Ok ("ERROR: Could not find release tag `" ++ tag_name
        ++ "` for categorization. Status: "
        ++ dec (status_code release_response) ++ ".")
  else
    release_data <- json release_response ;;
    published_date_str <- get release_data "published_at" (PStr (now_isoformat w)) ;;
    match _fetch_merged_prs w org_name repo_name published_date_str with
    | Raise e =>
        (* [except Exception as e: return ...] *)
        Ok ("TOOL_ERROR: Failed to fetch PRs for release. Error: " ++ exn_msg e)
    | Ok all_prs =>
        match all_prs with
        | [] =>
            Ok ("SUCCESS: Found no recently merged Pull Requests for release `"
                ++ tag_name ++ "`.")
        | _ =>
            summary <- categorize all_prs empty_summary ;;
            let output_parts :=
              report_sections summary
                (report_header org_name repo_name tag_name all_prs) in
            Ok (join NL output_parts)
        end
    end.

(** ** app.py *)

Module App.

(** A tool as the registry holds it: called with keyword arguments. *)
Definition tool : Type := World -> list (string * pyval) -> result string.

(** A call of [f] with the dict [args] unpacked into keyword arguments,
    [f] having the parameters [names], all required: an unexpected keyword
    or a missing argument is a [TypeError]. *)
Definition bind_kwargs (fname : string) (names : list string)
    (args : list (string * pyval)) : result (list pyval) :=
  match List.find (fun kv => negb (mem (fst kv) names)) args with
  | Some (k, _) =>
      Raise (Exn TypeError (fname ++ "() got an unexpected keyword argument '"
                            ++ k ++ "'"))
  | None =>
      match List.filter (fun name => negb (has_key name args)) names with
      | [] => Ok (map (fun name => match lookup name args with
                                   | Some v => v
                                   | None => PNone
                                   end) names)
      | missing =>
          Raise (Exn TypeError
                   (fname ++ "() missing "
                    ++ dec (Z.of_nat (List.length missing))
                    ++ " required positional argument"
                    ++ match missing with
                       | [a] => ": " ++ repr_str a
                       | [a; b] => "s: " ++ repr_str a ++ " and " ++ repr_str b
                       | _ => "s: " ++ join ", " (map repr_str (removelast missing))
                              ++ ", and " ++ repr_str (last missing "")
                       end))
      end
  end.

(** The three tools only ever interpolate their arguments into f-strings,
    so each argument enters the tool through [str]. *)
Definition call_check_latest_release : tool := fun w args =>
  vs <- bind_kwargs "check_latest_release" ["org_name"; "repo_name"] args ;;
  match vs with
  | [org_name; repo_name] =>
      check_latest_release w (py_str org_name) (py_str repo_name)
  | _ => Raise (Exn TypeError "check_latest_release()")
  end.

Definition call_get_dependency_file : tool := fun w args =>
  vs <- bind_kwargs "get_dependency_file" ["org_name"; "repo_name"; "file_path"] args ;;
  match vs with
  | [org_name; repo_name; file_path] =>
      get_dependency_file w (py_str org_name) (py_str repo_name) (py_str file_path)
  | _ => Raise (Exn TypeError "get_dependency_file()")
  end.

Definition call_get_release_prs : tool := fun w args =>
  vs <- bind_kwargs "get_release_prs" ["org_name"; "repo_name"; "tag_name"] args ;;
  match vs with
  | [org_name; repo_name; tag_name] =>
      get_release_prs w (py_str org_name) (py_str repo_name) (py_str tag_name)
  | _ => Raise (Exn TypeError "get_release_prs()")
  end.

Definition AVAILABLE_TOOLS : list (string * tool) :=
  [("check_latest_release", call_check_latest_release);
   ("get_dependency_file", call_get_dependency_file);
   ("get_release_prs", call_get_release_prs)].

(** One entry of [response.function_calls]. *)
Record FunctionCall : Type := mkCall {
  name : string;
  args : list (string * pyval)
}.

(** [types.Part.from_function_response(name=..., response=...)] *)
Record Part : Type := mkPart {
  part_name : string;
  part_response : list (string * pyval)
}.

(** A reply of the model session: its tool requests and its text. *)
Record ModelResponse : Type := mkModelResponse {
  function_calls : list FunctionCall;
  response_text : string
}.

(** The chat session: [send_message] answers from the batches it has been
    sent so far, or fails. *)
Definition chat : Type := list (list Part) -> result ModelResponse.

(** What the loop changes: the call counter of the session state and the
    batches submitted to the chat session, oldest first. *)
Record state : Type := mkState {
  gemini_calls : nat;
  sent : list (list Part)
}.

(** The body of [for function_call in response.function_calls]. *)
Definition tool_result (w : World) (function_call : FunctionCall) : result Part :=
  let function_name := name function_call in
  let args := args function_call in
  match lookup function_name AVAILABLE_TOOLS with
  | Some f =>
      tool_output <- f w args ;;
      Ok (mkPart function_name [("output", PStr tool_output)])
  | None =>
      Ok (mkPart function_name
            [("error", PStr ("Function " ++ function_name ++ " not found."))])
  end.

(** The [for] loop of a round, [tool_results] being the list built so far. *)
Fixpoint run_round (w : World) (calls : list FunctionCall) (tool_results : list Part)
  : result (list Part) :=
  match calls with
  | [] => Ok tool_results
  | function_call :: rest =>
      part <- tool_result w function_call ;;
      run_round w rest (tool_results ++ [part])%list
  end.

(** [handle_tool_call]: the [while] loop, cut off after [fuel] rounds
    ([None]).  An exception leaves the loop with the state reached. *)
Fixpoint handle_tool_call (fuel : nat) (w : World) (chat_session : chat)
    (st : state) (response : ModelResponse)
  : option (state * result ModelResponse) :=
  match function_calls response with
  | [] =>
      Some (mkState (S (gemini_calls st)) (sent st), Ok response)
  | calls =>
      match fuel with
      | O => None
      | S fuel' =>
          match run_round w calls [] with
          | Raise e => Some (st, Raise e)
          | Ok tool_results =>
              let st' := mkState (S (gemini_calls st))
                                 (sent st ++ [tool_results])%list in
              match chat_session (sent st') with
              | Raise e => Some (st', Raise e)
              | Ok response' => handle_tool_call fuel' w chat_session st' response'
              end
          end
      end
  end.

End App.
Import App.

(** ** Vocabulary of the statements *)

(** The requests the tools send. *)
Definition latest_release_request (w : World) (org_name repo_name : string) : Request :=
  mkRequest ("https://api.github.com/repos/" ++ org_name ++ "/" ++ repo_name
             ++ "/releases/latest")
            (_get_auth_headers w) None.

Definition dependency_file_request (w : World) (org_name repo_name file_path : string)
  : Request :=
  mkRequest ("https://api.github.com/repos/" ++ org_name ++ "/" ++ repo_name
             ++ "/contents/" ++ file_path)
            (match getenv w "GITHUB_TOKEN" with
             | Some github_token =>
                 if negb (String.eqb github_token "")
                 then [("Accept", "application/vnd.github.v3.raw");
                       ("Authorization", "token " ++ github_token)]
                 else [("Accept", "application/vnd.github.v3.raw")]
             | None => [("Accept", "application/vnd.github.v3.raw")]
             end)
            None.

Definition release_by_tag_request (w : World) (org_name repo_name tag_name : string)
  : Request :=
  mkRequest ("https://api.github.com/repos/" ++ org_name ++ "/" ++ repo_name
             ++ "/releases/tags/" ++ tag_name)
            (_get_auth_headers w) None.

Definition issues_request (w : World) (org_name repo_name : string) (since : pyval)
  : Request :=
  mkRequest ("https://api.github.com/repos/" ++ org_name ++ "/" ++ repo_name
             ++ "/issues")
            (_get_auth_headers w) (Some (issues_params since)).

(** The result Scenario 1 expects. *)
Definition scenario1_expected : string :=
  "SUCCESS: **hashicorp/vault** Latest Release: **v1.16.0** | Published: 2024-04-10. Release URL: https://.... Notes Snippet: "
  ++ dquote ++ "Improvements..." ++ dquote.

(** The notes snippet of a release whose notes are the string [body]. *)
Definition notes_snippet (body : string) : string :=
  replace_char nl " " (take 100 body) ++ "...".

(** The status prefix of a tool result. *)
Definition has_status_prefix (s : string) : bool :=
  startswith s "SUCCESS:" || startswith s "ERROR:" || startswith s "TOOL_ERROR:".

(** A pull request as the data model types it: the title and the labels
    are strings. *)
Definition well_typed (p : pr) : bool :=
  is_str (pr_title p) && forallb is_str (pr_labels p).

(** The three buckets and the rules of the categorizer, in the spec's words:
    rule 1, else rule 2, else rule 3, on the lower-cased title and labels. *)
Inductive category : Type := BugFixes | Enhancements | OtherChanges.

Definition category_name (c : category) : string :=
  match c with
  | BugFixes => "Bug Fixes"
  | Enhancements => "Enhancements/Features"
  | OtherChanges => "Other Changes"
  end.

Definition category_eqb (a b : category) : bool :=
  match a, b with
  | BugFixes, BugFixes | Enhancements, Enhancements | OtherChanges, OtherChanges => true
  | _, _ => false
  end.

Definition labels_match (keywords : list string) (p : pr) : bool :=
  any_in keywords (map (fun label => lower (py_str label)) (pr_labels p)).

Definition title_starts (prefix : string) (p : pr) : bool :=
  startswith (lower (py_str (pr_title p))) prefix.

Definition rule_category (p : pr) : category :=
  if labels_match BUG_KEYWORDS p || title_starts "fix" p then BugFixes
  else if labels_match ENHANCEMENT_KEYWORDS p || title_starts "feat" p then Enhancements
  else OtherChanges.

Definition in_category (c : category) (p : pr) : bool :=
  category_eqb (rule_category p) c.

(** The summary with its three buckets. *)
Definition summary_of (bugs enhancements others : list string) : summary_t :=
  [("Bug Fixes", bugs); ("Enhancements/Features", enhancements);
   ("Other Changes", others)].

Definition lines_in (c : category) (all_prs : list pr) : list string :=
  map pr_line (filter (in_category c) all_prs).

(** The test of [_fetch_merged_prs], as a filter. *)
Definition is_eligible (item : pyval) : bool :=
  match eligible item with
  | Ok true => true
  | _ => false
  end.

(** An item that carries the pull-request marker and a merge timestamp
    that is present. *)
Definition merged_pull_request (item : pyval) : Prop :=
  py_in "pull_request" item = Ok true
  /\ exists pull_request merged_at,
       get item "pull_request" (PDict []) = Ok pull_request
       /\ get pull_request "merged_at" PNone = Ok merged_at
       /\ truthy merged_at = true
       /\ merged_at <> PNone.

(** The host answers a request for a page of [n] items with at most [n]
    items. *)
Definition honours_page_size (w : World) : Prop :=
  forall req ps n resp items,
    params req = Some ps ->
    lookup "per_page" ps = Some (PInt n) ->
    (0 <= n)%Z ->
    requests_get w req = Ok resp ->
    json resp = Ok (PList items) ->
    (Z.of_nat (List.length items) <= n)%Z.

(** What a round owes one request. *)
Definition result_for (w : World) (c : FunctionCall) (p : Part) : Prop :=
  part_name p = name c /\
  match lookup (name c) AVAILABLE_TOOLS with
  | Some f => exists tool_output,
      f w (args c) = Ok tool_output /\
      part_response p = [("output", PStr tool_output)]
  | None =>
      part_response p = [("error", PStr ("Function " ++ name c ++ " not found."))]
  end.

(** Every call of the round that names a registered tool returns. *)
Definition tools_return (w : World) (calls : list FunctionCall) : Prop :=
  Forall (fun c => forall f, lookup (name c) AVAILABLE_TOOLS = Some f ->
                             returns (f w (args c))) calls.

(** ** Worlds of the scenarios *)

Module Scenario.

Definition no_env : string -> option string := fun _ => None.

Definition ok_json (v : pyval) : Response := mkResponse 200 "" (Ok v).

(** Scenario 1, the release body being a parameter. *)
Definition vault_release (body : pyval) : pyval :=
  PDict [("tag_name", PStr "v1.16.0");
         ("published_at", PStr "2024-04-10T12:00:00Z");
         ("html_url", PStr "https://...");
         ("body", body)].

Definition vault_world (body : pyval) : World :=
  mkWorld (fun _ => Ok (ok_json (vault_release body))) no_env "2024-05-01T00:00:00".

(** The network is down: every request fails at the transport level. *)
Definition offline : World :=
  mkWorld (fun _ => Raise (Exn RequestException "Connection refused"))
          no_env "2024-05-01T00:00:00".

(** Every request is answered 404. *)
Definition not_found : World :=
  mkWorld (fun _ => Ok (mkResponse 404 "" (Ok (PDict [("message", PStr "Not Found")]))))
          no_env "2024-05-01T00:00:00".

Definition merged (number : Z) (title : string) (labels : list string) : pyval :=
  PDict [("number", PInt number);
         ("title", PStr title);
         ("labels", PList (map (fun l => PDict [("name", PStr l)]) labels));
         ("html_url", PStr "https://github.com/o/r/pull");
         ("pull_request", PDict [("merged_at", PStr "2024-04-11T09:00:00Z")])].

Definition plain_issue (number : Z) (title : string) : pyval :=
  PDict [("number", PInt number); ("title", PStr title);
         ("labels", PList []); ("html_url", PStr "https://github.com/o/r/issues")].

(** Scenario 3, with an issue that is not a pull request in between. *)
Definition three_items : list pyval :=
  [merged 5 "Fix null pointer" [];
   merged 6 "Add dark mode" ["feature"];
   plain_issue 8 "Question";
   merged 7 "Update docs" []].

(** The release lookup succeeds and the issues endpoint returns the first
    page of [items]. *)
Definition repo_world (items : list pyval) : World :=
  mkWorld (fun req =>
             match params req with
             | Some ps =>
                 match lookup "per_page" ps with
                 | Some (PInt n) => Ok (ok_json (PList (firstn (Z.to_nat n) items)))
                 | _ => Ok (ok_json (PList items))
                 end
             | None => Ok (ok_json (vault_release (PStr "Notes")))
             end)
          no_env "2024-05-01T00:00:00".

(** Scenario 2: a file of twenty lines. *)
Definition twenty_lines : string :=
  join NL ["l01"; "l02"; "l03"; "l04"; "l05"; "l06"; "l07"; "l08"; "l09"; "l10";
           "l11"; "l12"; "l13"; "l14"; "l15"; "l16"; "l17"; "l18"; "l19"; "l20"].

Definition file_world (content : string) : World :=
  mkWorld (fun _ => Ok (mkResponse 200 content (Raise (Exn ValueError "not JSON"))))
          no_env "2024-05-01T00:00:00".

Definition three_prs : list pr :=
  [mkPr (PInt 5) (PStr "Fix null pointer") [] (PStr "https://github.com/o/r/pull");
   mkPr (PInt 6) (PStr "Add dark mode") [PStr "feature"]
        (PStr "https://github.com/o/r/pull");
   mkPr (PInt 7) (PStr "Update docs") [] (PStr "https://github.com/o/r/pull")].

(** A round of the model: a lookup whose tag does not exist and a tool
    that is not registered. *)
Definition two_calls : list FunctionCall :=
  [mkCall "get_release_prs"
          [("org_name", PStr "hashicorp"); ("repo_name", PStr "vault");
           ("tag_name", PStr "v0.0.0")];
   mkCall "delete_repository" [("org_name", PStr "hashicorp")]].

(** A call that leaves out a required argument. *)
Definition unbound_call : FunctionCall :=
  mkCall "check_latest_release" [("org_name", PStr "hashicorp")].

(** A chat session that answers any batch with its final text. *)
Definition final_answer : ModelResponse := mkModelResponse [] "Here is the report.".
Definition closing_chat : chat := fun _ => Ok final_answer.

(** A pull request labelled both as a bug and as a feature. *)
Definition both_labels : pr :=
  mkPr (PInt 9) (PStr "Rework the cache") [PStr "Bug"; PStr "Feature"]
       (PStr "https://github.com/o/r/pull").

End Scenario.

(** ** The rest of the two files *)

Module Health.

(** [isinstance(v, int)]: an integer, or a boolean, which is an integer too. *)
Definition int_value (v : pyval) : option Z :=
  match v with
  | PInt n => Some n
  | PBool true => Some 1%Z
  | PBool false => Some 0%Z
  | _ => None
  end.

(** [check_github_api_health].  The text of
    [datetime.fromtimestamp(ts).strftime("%Y-%m-%d %H:%M:%S")] depends on the
    time zone of the process and is the parameter [local_time]; it raises
    for a timestamp the platform cannot convert. *)
Definition check_github_api_health (w : World) (local_time : Z -> result string)
  : result (list (string * pyval)) :=
  let api_url := "https://api.github.com/rate_limit" in
  let headers := _get_auth_headers w in
  try_except
    (response <- requests_get w (mkRequest api_url headers None) ;;
     if negb (Z.eqb (status_code response) 200) then
       Ok [("status", PStr "ERROR");
           ("message", PStr ("Could not check rate limit. Status: "
                             ++ dec (status_code response)));
           ("remaining", PInt 0)]
     else
       data <- json response ;;
       resources <- get data "resources" (PDict []) ;;
       rate_data <- get resources "core" (PDict []) ;;
       limit <- get rate_data "limit" (PStr "N/A") ;;
       remaining <- get rate_data "remaining" (PStr "N/A") ;;
       reset_ts <- get rate_data "reset" (PStr "N/A") ;;
       reset_time <-
         (match int_value reset_ts with
          | Some ts => local_time ts
          | None => Ok "N/A"
          end) ;;
       Ok [("status", PStr "SUCCESS");
           ("limit", limit);
           ("remaining", remaining);
           ("reset_time", PStr reset_time);
           ("used_token",
            PBool (match getenv w "GITHUB_TOKEN" with
                   | Some t => negb (String.eqb t "")
                   | None => false
                   end))])
    is_request_exception
    (fun e => Ok [("status", PStr "TOOL_ERROR");
                  ("message", PStr ("Network error during health check: " ++ exn_msg e));
                  ("remaining", PInt 0)]).

(** What [display_health_dashboard] puts in the sidebar. *)
Inductive widget : Type :=
| Header (s : string)
| Subheader (s : string)
| Markdown (s : string)
| Metric (label : string) (value : string) (delta_color : string)
| Caption (s : string)
| ErrorBox (s : string).

(** [display_health_dashboard], [github_health] being what
    [get_health_metrics()] gave and [gemini_calls] the counter of the
    session state.  [metric label value delta_color] is the call of
    Streamlit's [metric] on a column or on the sidebar: it gives the widget
    drawn, or the exception Streamlit raises for a value it does not
    accept, which depends on the release of Streamlit and is left to the
    parameter.  The result is the sidebar of a run that ends; what a run
    that raises had drawn before is not kept. *)
Definition display_health_dashboard
    (metric : string -> pyval -> string -> result widget)
    (github_health : list (string * pyval))
    (gemini_calls : nat) : result (list widget) :=
  let health := PDict github_health in
  status <- getitem health "status" ;;
  github_part <-
    (if eq_str status "SUCCESS" then
       used_token <- getitem health "used_token" ;;
       remaining <- getitem health "remaining" ;;
       m1 <- metric "Calls Remaining" remaining
                    (if truthy used_token then "off" else "normal") ;;
       limit <- getitem health "limit" ;;
       m2 <- metric "Total Limit" limit "normal" ;;
       reset_time <- getitem health "reset_time" ;;
       Ok [Markdown ("**Authentication:** "
                     ++ (if truthy used_token then ":green[Token Used]"
                         else ":red[Anonymous]"));
           m1; m2;
           Caption ("Reset Time: " ++ py_str reset_time)]
     else
       message <- getitem health "message" ;;
       Ok [ErrorBox ("GitHub Health Check Error: " ++ py_str message)]) ;;
  m3 <- metric "Session Calls Made" (PInt (Z.of_nat gemini_calls)) "normal" ;;
  Ok (List.app
        (Header "Health Dashboard 🩺" :: Subheader "GitHub API Status" :: github_part)
        [Markdown "---";
         Subheader "Gemini API Usage";
         m3;
         Caption "This counter resets on app refresh."]).

End Health.
Import Health.

Module Declarations.

(** An entry of [TOOL_DEFINITION_DICT["function_declarations"]]: the name,
    the properties of the parameters object (name, type, description) and
    the required names.  The description of the function, its docstring, is
    left out. *)
Record declaration : Type := mkDeclaration {
  decl_name : string;
  decl_properties : list (string * (string * string));
  decl_required : list string
}.

Definition org_name_property : string * (string * string) :=
  ("org_name", ("STRING", "The GitHub organization or user name (e.g., 'hashicorp').")).
Definition repo_name_property : string * (string * string) :=
  ("repo_name", ("STRING", "The GitHub repository name (e.g., 'vault').")).

Definition TOOL_DEFINITION_DICT : list declaration :=
  [mkDeclaration "check_latest_release"
     [org_name_property; repo_name_property]
     ["org_name"; "repo_name"];
   mkDeclaration "get_dependency_file"
     [org_name_property; repo_name_property;
      ("file_path", ("STRING", "The path to the dependency file (e.g., 'go.mod', 'package.json')."))]
     ["org_name"; "repo_name"; "file_path"];
   mkDeclaration "get_release_prs"
     [org_name_property; repo_name_property;
      ("tag_name", ("STRING", "The specific release tag (e.g., 'v1.0.0') to analyze."))]
     ["org_name"; "repo_name"; "tag_name"]].

(** The value passed for the parameter [k], as the tool sees it. *)
Definition argument (args : list (string * pyval)) (k : string) : string :=
  match lookup k args with
  | Some v => py_str v
  | None => py_str PNone
  end.

(** The tool of that name, called directly with the arguments [arg] names. *)
Definition direct_call (tool_name : string) (w : World) (arg : string -> string)
  : result string :=
  if String.eqb tool_name "check_latest_release" then
    check_latest_release w (arg "org_name") (arg "repo_name")
  else if String.eqb tool_name "get_dependency_file" then
    get_dependency_file w (arg "org_name") (arg "repo_name") (arg "file_path")
  else
    get_release_prs w (arg "org_name") (arg "repo_name") (arg "tag_name").

End Declarations.
Import Declarations.

(** ** More vocabulary *)


(** The number of rounds the replies of a chat session ask for. *)
Definition always_requests (w : World) (chat_session : chat) : Prop :=
  forall batches, exists response,
    chat_session batches = Ok response
    /\ function_calls response <> []
    /\ tools_return w (function_calls response).


(** A chat session that asks for the same lookup again and again. *)
Definition insisting_chat : chat :=
  fun _ => Ok (mkModelResponse Scenario.two_calls "").

(** The rate-limit answer of the host, and a clock in UTC for two instants. *)
Definition rate_limit_body : pyval :=
  PDict [("resources",
          PDict [("core", PDict [("limit", PInt 5000); ("remaining", PInt 4990);
                                 ("reset", PInt 1712750400)])])].

Definition rate_limit_world : World :=
  mkWorld (fun _ => Ok (mkResponse 200 "" (Ok rate_limit_body)))
          (fun k => if String.eqb k "GITHUB_TOKEN" then Some "ghp_token" else None)
          "2024-05-01T00:00:00".

Definition utc_clock : Z -> result string :=
  fun ts => if Z.eqb ts 1712750400 then Ok "2024-04-10 12:00:00"
            else Raise (Exn ValueError "year out of range").

(** Every request is answered 500. *)
Definition server_error : World :=
  mkWorld (fun _ => Ok (mkResponse 500 "Internal Server Error"
                          (Raise (Exn ValueError "Expecting value"))))
          Scenario.no_env "2024-05-01T00:00:00".

(** Every request is answered 200 with an empty JSON object. *)
Definition bare_world : World :=
  mkWorld (fun _ => Ok (Scenario.ok_json (PDict []))) Scenario.no_env
          "2024-05-01T00:00:00".

(** Every request is answered 200 with a body that is not JSON; decoding
    it fails with the exception [e]. *)
Definition undecodable (e : exn) : World :=
  mkWorld (fun _ => Ok (mkResponse 200 "<html>" (Raise e))) Scenario.no_env
          "2024-05-01T00:00:00".

(** A pull request closed without a merge, and one whose entry has lost
    its number. *)
Definition unmerged (number : Z) (title : string) : pyval :=
  PDict [("number", PInt number); ("title", PStr title);
         ("labels", PList []); ("html_url", PStr "https://github.com/o/r/pull");
         ("pull_request", PDict [("merged_at", PNone)])].

Definition numberless (title : string) : pyval :=
  PDict [("title", PStr title);
         ("html_url", PStr "https://github.com/o/r/pull");
         ("pull_request", PDict [("merged_at", PStr "2024-04-11T09:00:00Z")])].

(** A host that ignores the page size asked for: every request is answered
    200 with sixty merged pull requests. *)
Definition sixty_items : list pyval :=
  repeat (Scenario.merged 5 "Fix null pointer" []) 60.

Definition crowded_world : World :=
  mkWorld (fun _ => Ok (Scenario.ok_json (PList sixty_items))) Scenario.no_env
          "2024-05-01T00:00:00".

(** A [metric] that draws every value through [str]. *)
Definition plain_metric (label : string) (value : pyval) (delta_color : string)
  : result widget :=
  Ok (Metric label (py_str value) delta_color).

(** * Properties *)

(** ** The models of the library functions, on examples *)

Example fromisoformat_utc :
  fromisoformat "2024-04-10T12:00:00+00:00"
  = Ok (mkDatetime 2024 4 10 12 0 0 0 (Some (false, 0%N))).
Proof. reflexivity. Qed.

Example fromisoformat_Z_suffix : raises (fromisoformat "2024-04-10T12:00:00Z").
Proof. eexists. reflexivity. Qed.

Example fromisoformat_leap_day :
  returns (fromisoformat "2024-02-29") /\ raises (fromisoformat "2023-02-29").
Proof. split; eexists; reflexivity. Qed.

Example fromisoformat_field_checks :
  fromisoformat "2023-02-29" = Raise (Exn ValueError "day is out of range for month")
  /\ fromisoformat "2024-13-01T00:00:00"
     = Raise (Exn ValueError "month must be in 1..12")
  /\ fromisoformat "2024-04-10T24:00:00" = Raise (Exn ValueError "hour must be in 0..23").
Proof. repeat split; reflexivity. Qed.

Example split_keeps_trailing_piece :
  split nl (join NL ["a"; "b"; ""]) = ["a"; "b"; ""].
Proof. reflexivity. Qed.

Example repr_picks_quote :
  py_repr (PDict [("it's", PList [PInt (-3); PNone; PStr "x"])])
  = "{" ++ dquote ++ "it's" ++ dquote ++ ": [-3, None, 'x']}".
Proof. reflexivity. Qed.

Example bind_kwargs_missing :
  bind_kwargs "check_latest_release" ["org_name"; "repo_name"]
              [("org_name", PStr "hashicorp")]
  = Raise (Exn TypeError
      "check_latest_release() missing 1 required positional argument: 'repo_name'").
Proof. reflexivity. Qed.

(** ** Generalities *)

Lemma bind_ok {A B} (m : result A) (k : A -> result B) (b : B) :
  bind m k = Ok b -> exists a, m = Ok a /\ k a = Ok b.
Proof.
  destruct m as [a|e]; simpl; intro H; [eauto | discriminate].
Qed.

Lemma try_except_any {A} (body : result A) (handler : exn -> result A) :
  (forall e, returns (handler e)) ->
  returns (try_except body any_exception handler).
Proof.
  intro Hh. destruct body as [a|e]; simpl; [eexists; reflexivity | apply Hh].
Qed.

Lemma make_api_call_eq (w : World) (u : string) (h : list (string * string))
    (ps : option (list (string * pyval))) :
  _make_api_call w u h ps = requests_get w (mkRequest u h ps).
Proof. reflexivity. Qed.

(** ** Tool 2 returns on every outcome *)

Lemma get_dependency_file_returns (w : World) (org_name repo_name file_path : string) :
  returns (get_dependency_file w org_name repo_name file_path).
Proof.
  unfold get_dependency_file. apply try_except_any.
  intro e. eexists; reflexivity.
Qed.

(** ** Tool 1 turns a transport failure into a result *)

Lemma check_latest_release_catches_transport
    (w : World) (org_name repo_name : string) (e : exn) :
  requests_get w (latest_release_request w org_name repo_name) = Raise e ->
  is_request_exception e = true ->
  check_latest_release w org_name repo_name
  = Ok ("TOOL_ERROR: Network or connection issue: " ++ exn_msg e).
Proof.
  intros Hget Hreq. unfold check_latest_release.
  rewrite make_api_call_eq. fold (latest_release_request w org_name repo_name).
  rewrite Hget. simpl. rewrite Hreq. reflexivity.
Qed.

(** ** Tool 3: the release lookup *)

(** A release lookup that is answered with a status other than 200 (a
    nonexistent tag is answered 404) gives an [ERROR:] result. *)
Lemma get_release_prs_unknown_tag
    (w : World) (org_name repo_name tag_name : string) (resp : Response) :
  requests_get w (release_by_tag_request w org_name repo_name tag_name) = Ok resp ->
  status_code resp <> 200%Z ->
  get_release_prs w org_name repo_name tag_name
  = Ok ("ERROR: Could not find release tag `" ++ tag_name
        ++ "` for categorization. Status: " ++ dec (status_code resp) ++ ".").
Proof.
  intros Hget Hst. unfold get_release_prs.
  rewrite make_api_call_eq. fold (release_by_tag_request w org_name repo_name tag_name).
  rewrite Hget. simpl.
  destruct (Z.eqb_spec (status_code resp) 200) as [E|_]; [contradiction|reflexivity].
Qed.

(** The first request of [get_release_prs] is made outside any [try]: what
    it raises leaves the tool. *)
Lemma get_release_prs_first_call_unguarded
    (w : World) (org_name repo_name tag_name : string) (e : exn) :
  requests_get w (release_by_tag_request w org_name repo_name tag_name) = Raise e ->
  get_release_prs w org_name repo_name tag_name = Raise e.
Proof.
  intro Hget. unfold get_release_prs.
  rewrite make_api_call_eq. fold (release_by_tag_request w org_name repo_name tag_name).
  rewrite Hget. reflexivity.
Qed.

(** C1 (violated by the code). No exception should cross the tool
    boundary, whatever the HTTP calls do.  With the network down,
    [check_latest_release] and [get_dependency_file] return a [TOOL_ERROR:]
    result, but [get_release_prs] lets the exception of its first request
    through; a lookup of a nonexistent tag does give an [ERROR:] result. *)
Theorem transport_failure_escapes_get_release_prs :
  get_release_prs Scenario.offline "hashicorp" "vault" "v1.16.0"
    = Raise (Exn RequestException "Connection refused")
  /\ check_latest_release Scenario.offline "hashicorp" "vault"
    = Ok "TOOL_ERROR: Network or connection issue: Connection refused"
  /\ get_dependency_file Scenario.offline "hashicorp" "vault" "go.mod"
    = Ok "TOOL_ERROR: Could not process file content. Error: Connection refused"
  /\ get_release_prs Scenario.not_found "hashicorp" "vault" "v0.0.0"
    = Ok "ERROR: Could not find release tag `v0.0.0` for categorization. Status: 404.".
Proof. repeat split; reflexivity. Qed.

(** C3 (violated by the code). Every outcome of a tool should be a string
    that starts with a status prefix.  A release whose notes are [null]
    makes [check_latest_release] raise a [TypeError], which its handler for
    request exceptions does not catch: no string is returned. *)
Theorem null_release_body_escapes_check_latest_release :
  check_latest_release (Scenario.vault_world PNone) "hashicorp" "vault"
  = Raise (Exn TypeError "'NoneType' object is not subscriptable").
Proof. reflexivity. Qed.

(** ** What a tool returns starts with a status prefix *)

(** Case analysis on the innermost scrutinee of the [match]es and [if]s of
    a hypothesis, until none is left. *)
Ltac innermost t :=
  match t with
  | context [match ?x with Ok _ => _ | Raise _ => _ end] => innermost_or x
  | context [if ?b then _ else _] => innermost_or b
  end
with innermost_or x := first [ innermost x | destruct x eqn:? ].

Ltac split_result H :=
  repeat (let t := type of H in innermost t; cbv beta iota in H).

Ltac close_prefix H :=
  first [ discriminate H
        | injection H as H; subst; reflexivity ].

Lemma check_latest_release_prefixed (w : World) (org_name repo_name s : string) :
  check_latest_release w org_name repo_name = Ok s -> has_status_prefix s = true.
Proof.
  unfold check_latest_release, try_except, bind. intro H.
  split_result H; close_prefix H.
Qed.

Lemma get_dependency_file_prefixed (w : World) (org_name repo_name file_path s : string) :
  get_dependency_file w org_name repo_name file_path = Ok s ->
  has_status_prefix s = true.
Proof.
  unfold get_dependency_file, try_except, bind. intro H.
  split_result H; close_prefix H.
Qed.

Lemma report_sections_app (summary : summary_t) (output_parts : list string) :
  exists sections, report_sections summary output_parts = List.app output_parts sections.
Proof.
  revert output_parts.
  induction summary as [|[category items] r IH]; intro output_parts; simpl.
  - exists []. now rewrite app_nil_r.
  - destruct items as [|i items'].
    + apply IH.
    + match goal with
      | |- exists _, report_sections r ?parts = _ =>
          destruct (IH parts) as [sections Hs]
      end.
      eexists. rewrite Hs. rewrite <- !app_assoc. reflexivity.
Qed.

Lemma get_release_prs_prefixed (w : World) (org_name repo_name tag_name s : string) :
  get_release_prs w org_name repo_name tag_name = Ok s -> has_status_prefix s = true.
Proof.
  unfold get_release_prs, bind. intro H.
  destruct (_make_api_call w _ _ None) as [resp|]; [|discriminate].
  destruct (negb (status_code resp =? 200)%Z); [close_prefix H|].
  destruct (json resp) as [data|]; [|discriminate].
  destruct (get data "published_at" _) as [since|]; [|discriminate].
  destruct (_fetch_merged_prs w org_name repo_name since) as [all_prs|e];
    [|close_prefix H].
  destruct all_prs as [|p rest]; [close_prefix H|].
  destruct (categorize (p :: rest) empty_summary) as [summary|]; [|discriminate].
  injection H as H; subst s.
  destruct (report_sections_app summary
              (report_header org_name repo_name tag_name (p :: rest))) as [sections ->].
  reflexivity.
Qed.

(** ** Scenario 1: the latest release *)

(** C4 as stated fails: for the release body ["Improvements..."] the
    result is not the expected text, because the ellipsis marker is added
    after the three dots the body already ends with. *)
Lemma scenario1_expected_text_differs :
  check_latest_release (Scenario.vault_world (PStr "Improvements...")) "hashicorp" "vault"
  <> Ok scenario1_expected.
Proof.
  intro H. vm_compute in H. discriminate H.
Qed.

(** C4 (amended). For the release of Scenario 1 the result is the expected
    text with the notes snippet ["Improvements......"]: the publish time is
    shown as a date, and whatever the notes are, the snippet is their first
    100 characters with every line break replaced by a space, followed by
    the ellipsis marker, also when nothing was cut off. *)
Theorem latest_release_scenario :
  check_latest_release (Scenario.vault_world (PStr "Improvements...")) "hashicorp" "vault"
  = Ok ("SUCCESS: **hashicorp/vault** Latest Release: **v1.16.0** | Published: 2024-04-10. Release URL: https://.... Notes Snippet: "
        ++ dquote ++ "Improvements......" ++ dquote)
  /\ forall body : string,
      check_latest_release (Scenario.vault_world (PStr body)) "hashicorp" "vault"
      = Ok ("SUCCESS: **hashicorp/vault** Latest Release: **v1.16.0** | Published: 2024-04-10. Release URL: https://.... Notes Snippet: "
            ++ dquote ++ notes_snippet body ++ dquote).
Proof.
  split; [reflexivity | intro body; reflexivity].
Qed.

(** ** Scenario 2: the dependency file *)

Lemma firstn_split_at {A} (n : nat) (l : list A) :
  n <= List.length l ->
  List.length (firstn n l) = n /\ l = List.app (firstn n l) (skipn n l).
Proof.
  intro H. split.
  - apply firstn_length_le, H.
  - symmetry. apply firstn_skipn.
Qed.

(** C8. When the request for the file is answered 200 with a content of at
    least ten lines, the result is the success header and a fenced block
    holding exactly the first ten lines, joined by line breaks. *)
Theorem dependency_file_first_ten_lines
    (w : World) (org_name repo_name file_path : string) (resp : Response) :
  requests_get w (dependency_file_request w org_name repo_name file_path) = Ok resp ->
  status_code resp = 200%Z ->
  10 <= List.length (split nl (text resp)) ->
  exists first_lines rest : list string,
    List.length first_lines = 10
    /\ split nl (text resp) = List.app first_lines rest
    /\ get_dependency_file w org_name repo_name file_path
       = Ok ("SUCCESS: Content of `" ++ file_path ++ "`:" ++ NL ++ "```" ++ NL
             ++ join NL first_lines ++ NL ++ "```").
Proof.
  intros Hget Hst Hlen.
  destruct (firstn_split_at 10 (split nl (text resp)) Hlen) as [Hten Hsplit].
  exists (firstn 10 (split nl (text resp))), (skipn 10 (split nl (text resp))).
  split; [exact Hten | split; [exact Hsplit|]].
  unfold get_dependency_file. rewrite make_api_call_eq.
  unfold dependency_file_request in Hget.
  replace (requests_get w _) with (@Ok Response resp).
  simpl. rewrite Hst. reflexivity.
Qed.

Lemma dependency_file_first_ten_lines_witness :
  exists first_lines rest : list string,
    List.length first_lines = 10
    /\ split nl (text (mkResponse 200 Scenario.twenty_lines
                         (Raise (Exn ValueError "not JSON"))))
       = List.app first_lines rest
    /\ get_dependency_file (Scenario.file_world Scenario.twenty_lines)
         "grafana" "grafana" "package.json"
       = Ok ("SUCCESS: Content of `" ++ "package.json" ++ "`:" ++ NL ++ "```" ++ NL
             ++ join NL first_lines ++ NL ++ "```").
Proof.
  apply (dependency_file_first_ten_lines
           (Scenario.file_world Scenario.twenty_lines)
           "grafana" "grafana" "package.json"
           (mkResponse 200 Scenario.twenty_lines (Raise (Exn ValueError "not JSON")))).
  - reflexivity.
  - reflexivity.
  - vm_compute. lia.
Defined.

Example scenario2_twenty_lines :
  get_dependency_file (Scenario.file_world Scenario.twenty_lines)
    "grafana" "grafana" "package.json"
  = Ok (join NL ["SUCCESS: Content of `package.json`:"; "```";
                 "l01"; "l02"; "l03"; "l04"; "l05"; "l06"; "l07"; "l08"; "l09"; "l10";
                 "```"]).
Proof. reflexivity. Qed.

(** ** Tool 3: no candidate pull request *)

(** C9. When the release is found and the fetch of merged pull requests
    gives the empty list, the report is the single sentence that no recently
    merged pull requests were found, under the [SUCCESS:] prefix. *)
Theorem empty_candidates_report
    (w : World) (org_name repo_name tag_name : string)
    (resp : Response) (release_data since : pyval) :
  requests_get w (release_by_tag_request w org_name repo_name tag_name) = Ok resp ->
  status_code resp = 200%Z ->
  json resp = Ok release_data ->
  get release_data "published_at" (PStr (now_isoformat w)) = Ok since ->
  _fetch_merged_prs w org_name repo_name since = Ok [] ->
  let report := "SUCCESS: Found no recently merged Pull Requests for release `"
                ++ tag_name ++ "`." in
  get_release_prs w org_name repo_name tag_name = Ok report
  /\ startswith report "SUCCESS:" = true
  /\ contains report "no recently merged Pull Requests" = true.
Proof.
  intros Hget Hst Hjson Hsince Hfetch report.
  split; [|split; reflexivity].
  unfold get_release_prs. rewrite make_api_call_eq.
  fold (release_by_tag_request w org_name repo_name tag_name).
  rewrite Hget. simpl. rewrite Hst. simpl.
  rewrite Hjson. simpl. rewrite Hsince. simpl.
  rewrite Hfetch. reflexivity.
Qed.

Lemma empty_candidates_report_witness :
  get_release_prs (Scenario.repo_world [Scenario.plain_issue 8 "Question"])
    "hashicorp" "vault" "v1.16.0"
  = Ok "SUCCESS: Found no recently merged Pull Requests for release `v1.16.0`.".
Proof.
  refine (proj1 (empty_candidates_report
           (Scenario.repo_world [Scenario.plain_issue 8 "Question"])
           "hashicorp" "vault" "v1.16.0"
           (Scenario.ok_json (Scenario.vault_release (PStr "Notes")))
           (Scenario.vault_release (PStr "Notes"))
           (PStr "2024-04-10T12:00:00Z") _ _ _ _ _)); reflexivity.
Defined.

(** ** The fetch of merged pull requests *)

Lemma mapM_length {A B} (f : A -> result B) (l : list A) (ys : list B) :
  mapM f l = Ok ys -> List.length ys = List.length l.
Proof.
  revert ys. induction l as [|x r IH]; simpl; intros ys H.
  - injection H as <-. reflexivity.
  - destruct (f x) as [y|]; [|discriminate].
    destruct (mapM f r) as [ys'|]; [|discriminate].
    injection H as <-. simpl. f_equal. now apply IH.
Qed.

Lemma mapM_Forall2 {A B} (f : A -> result B) (l : list A) (ys : list B) :
  mapM f l = Ok ys <-> Forall2 (fun x y => f x = Ok y) l ys.
Proof.
  revert ys. induction l as [|x r IH]; simpl; intros ys; split; intro H.
  - injection H as <-. constructor.
  - inversion H. reflexivity.
  - destruct (f x) as [y|] eqn:Ex; [|discriminate].
    destruct (mapM f r) as [ys'|] eqn:Er; [|discriminate].
    injection H as <-. constructor; [exact Ex | now apply IH].
  - inversion H as [|x' y l' ys' Hx Hr]; subst.
    rewrite Hx. apply IH in Hr. rewrite Hr. reflexivity.
Qed.

(** The loop keeps, in order, the items that pass the test. *)
Lemma collect_prs_filter (items : list pyval) :
  forall prs out : list pr,
    collect_prs items prs = Ok out ->
    exists kept, out = List.app prs kept
                 /\ mapM pr_of_item (filter is_eligible items) = Ok kept.
Proof.
  induction items as [|item rest IH]; simpl; intros prs out H.
  - injection H as <-. exists []. now rewrite app_nil_r.
  - unfold bind in H. unfold is_eligible.
    destruct (eligible item) as [[|]|] eqn:El; [| |discriminate].
    + destruct (pr_of_item item) as [p|] eqn:Ep; [|discriminate].
      destruct (IH _ _ H) as [kept [-> Hk]].
      exists (p :: kept). split; [now rewrite <- app_assoc|].
      simpl. rewrite Ep. fold is_eligible. rewrite Hk. reflexivity.
    + apply IH, H.
Qed.

(** What passing the test means for an item. *)
Lemma eligible_true (item : pyval) :
  eligible item = Ok true ->
  py_in "pull_request" item = Ok true
  /\ exists pull_request merged_at,
       get item "pull_request" (PDict []) = Ok pull_request
       /\ get pull_request "merged_at" PNone = Ok merged_at
       /\ truthy merged_at = true
       /\ merged_at <> PNone.
Proof.
  unfold eligible, bind. intro H.
  destruct (py_in "pull_request" item) as [[|]|]; try discriminate.
  split; [reflexivity|].
  destruct (get item "pull_request" (PDict [])) as [pull_request|]; [|discriminate].
  destruct (get pull_request "merged_at" PNone) as [merged_at|] eqn:Em; [|discriminate].
  injection H as H. exists pull_request, merged_at.
  split; [reflexivity|]. split; [exact Em|]. split; [exact H|].
  intros ->. discriminate H.
Qed.

Lemma filter_length_le {A} (f : A -> bool) (l : list A) :
  List.length (filter f l) <= List.length l.
Proof.
  induction l as [|x r IH]; simpl; [lia|].
  destruct (f x); simpl; lia.
Qed.

Lemma iterate_length (v : pyval) (items : list pyval) :
  iterate v = Ok items ->
  (exists l, v = PList l /\ items = l)
  \/ Forall (fun item => is_str item = true) items.
Proof.
  destruct v; simpl; intro H; try discriminate; injection H as <-.
  - right. induction (chars s); simpl; constructor; auto.
  - left. eauto.
  - right. induction d; simpl; constructor; auto.
Qed.

(** An item that is a string never passes the test: looking a key up in it
    raises. *)
Lemma strings_not_eligible (items : list pyval) :
  Forall (fun item => is_str item = true) items ->
  filter is_eligible items = [].
Proof.
  induction 1 as [|item rest Hs _ IH]; simpl; [reflexivity|].
  destruct item; try discriminate Hs.
  unfold is_eligible, eligible; simpl.
  fold (is_eligible) in *.
  destruct (contains s "pull_request"); simpl; exact IH.
Qed.

Lemma fetch_merged_prs_unfold
    (w : World) (org_name repo_name : string) (since : pyval) (resp : Response) :
  requests_get w (issues_request w org_name repo_name since) = Ok resp ->
  _fetch_merged_prs w org_name repo_name since
  = if negb (status_code resp =? 200)%Z then Ok []
    else (all_closed_items <- json resp ;;
          items <- iterate all_closed_items ;;
          collect_prs items []).
Proof.
  intro Hget. unfold _fetch_merged_prs. rewrite make_api_call_eq.
  fold (issues_request w org_name repo_name since). rewrite Hget. reflexivity.
Qed.

Lemma Forall2_eligible (items : list pyval) (prs : list pr) :
  Forall2 (fun item p => pr_of_item item = Ok p) (filter is_eligible items) prs ->
  Forall2 (fun item p => merged_pull_request item /\ pr_of_item item = Ok p)
          (filter is_eligible items) prs.
Proof.
  assert (Hall : Forall (fun item => is_eligible item = true) (filter is_eligible items)).
  { apply Forall_forall. intros x Hx. apply filter_In in Hx. tauto. }
  revert Hall. generalize (filter is_eligible items) as raws.
  intros raws Hall H. induction H as [|item p raws' prs' Hp _ IH]; constructor.
  - split; [|exact Hp].
    apply eligible_true. inversion Hall as [|? ? He _]; subst.
    unfold is_eligible in He.
    destruct (eligible item) as [[|]|]; [reflexivity|discriminate|discriminate].
  - apply IH. now inversion Hall.
Qed.

(** C5 as stated fails: the loop keeps every item of the page that passes
    the test and cuts nothing off, so a 200 page of sixty merged pull
    requests gives sixty entries. *)
Lemma sixty_merged_prs_are_all_returned :
  exists prs,
    _fetch_merged_prs crowded_world "o" "r" (PStr "2024-04-10T12:00:00Z") = Ok prs
    /\ List.length prs = 60
    /\ ~ List.length prs <= 50.
Proof.
  exists (repeat (mkPr (PInt 5) (PStr "Fix null pointer") []
                       (PStr "https://github.com/o/r/pull")) 60).
  split; [vm_compute; reflexivity|].
  split; [reflexivity | rewrite repeat_length; lia].
Qed.

Lemma repo_world_honours_page_size (items : list pyval) :
  honours_page_size (Scenario.repo_world items).
Proof.
  intros req ps n resp page Hps Hn Hpos Hget Hjson.
  simpl in Hget. rewrite Hps, Hn in Hget.
  injection Hget as <-. simpl in Hjson. injection Hjson as <-.
  rewrite length_firstn. lia.
Qed.

(** C5 (amended). The fetch makes one request, for a page of 50 items.
    Answered with a status other than 200, it gives the empty list.
    Answered 200, what it returns is built, in order, from the items of the
    page that carry the pull-request marker and a merge timestamp that is
    present; it has no more entries than the page has items, hence at most
    50 when the host honours the page size asked for. *)
Theorem fetch_merged_prs_one_page
    (w : World) (org_name repo_name : string) (since : pyval) (resp : Response) :
  requests_get w (issues_request w org_name repo_name since) = Ok resp ->
  lookup "per_page" (issues_params since) = Some (PInt 50)
  /\ (status_code resp <> 200%Z ->
      _fetch_merged_prs w org_name repo_name since = Ok [])
  /\ (status_code resp = 200%Z ->
      forall prs, _fetch_merged_prs w org_name repo_name since = Ok prs ->
        exists items,
          (all_closed_items <- json resp ;; iterate all_closed_items) = Ok items
          /\ Forall2 (fun item p => merged_pull_request item /\ pr_of_item item = Ok p)
                     (filter is_eligible items) prs
          /\ List.length prs <= List.length items
          /\ (honours_page_size w -> List.length prs <= 50)).
Proof.
  intro Hget. split; [reflexivity|].
  rewrite (fetch_merged_prs_unfold _ _ _ _ _ Hget). split.
  - intro Hst. destruct (Z.eqb_spec (status_code resp) 200); [contradiction|reflexivity].
  - intros Hst prs H. rewrite Hst in H. simpl in H.
    apply bind_ok in H. destruct H as [all_closed_items [Hjson H]].
    apply bind_ok in H. destruct H as [items [Hiter H]].
    apply collect_prs_filter in H. destruct H as [kept [-> Hkept]]. simpl.
    exists items.
    assert (Hlen : List.length kept <= List.length items).
    { rewrite (mapM_length _ _ _ Hkept). apply filter_length_le. }
    split; [rewrite Hjson; simpl; exact Hiter|].
    split; [apply Forall2_eligible; apply mapM_Forall2; exact Hkept|].
    split; [exact Hlen|].
    intro Hpage.
    destruct (iterate_length _ _ Hiter) as [[l [-> ->]]|Hstr].
    + assert (Hl : (Z.of_nat (List.length l) <= per_page)%Z).
      { apply (Hpage (issues_request w org_name repo_name since)
                     (issues_params since) per_page resp l);
          [reflexivity | reflexivity | unfold per_page; lia | exact Hget | exact Hjson]. }
      unfold per_page in Hl. lia.
    + rewrite (mapM_length _ _ _ Hkept), (strings_not_eligible _ Hstr). simpl. lia.
Qed.

Lemma fetch_merged_prs_one_page_witness :
  let w := Scenario.repo_world Scenario.three_items in
  let since := PStr "2024-04-10T12:00:00Z" in
  _fetch_merged_prs w "o" "r" since = Ok Scenario.three_prs
  /\ exists items,
       (all_closed_items <- Ok (PList Scenario.three_items) ;;
        iterate all_closed_items) = Ok items
       /\ Forall2 (fun item p => merged_pull_request item /\ pr_of_item item = Ok p)
                  (filter is_eligible items) Scenario.three_prs
       /\ List.length Scenario.three_prs <= List.length items
       /\ (honours_page_size w -> List.length Scenario.three_prs <= 50).
Proof.
  intros w since. split; [reflexivity|].
  apply (proj2 (proj2 (fetch_merged_prs_one_page w "o" "r" since
                         (Scenario.ok_json (PList Scenario.three_items))
                         eq_refl))
               eq_refl Scenario.three_prs eq_refl).
Defined.

(** ** The categorizer *)

Lemma mem_In (kw : string) (l : list string) : mem kw l = true <-> In kw l.
Proof.
  unfold mem. rewrite existsb_exists. split.
  - intros [x [Hx He]]. apply String.eqb_eq in He. now subst.
  - intro H. exists kw. split; [exact H | apply String.eqb_refl].
Qed.

(** [any(kw in labels_lower ...)] holds exactly when a keyword is equal to
    one of the lower-cased labels. *)
Lemma any_in_exact (keywords labels_lower : list string) :
  any_in keywords labels_lower = true
  <-> exists kw, In kw keywords /\ In kw labels_lower.
Proof.
  unfold any_in. rewrite existsb_exists.
  split; intros [kw [Hk Hl]]; exists kw; (split; [exact Hk|]); now apply mem_In.
Qed.

Lemma labels_lower_ok (labels : list pyval) :
  forallb is_str labels = true ->
  mapM (fun label => l <- as_str "lower" label ;; Ok (lower l)) labels
  = Ok (map (fun label => lower (py_str label)) labels).
Proof.
  induction labels as [|v r IH]; simpl; [reflexivity|].
  intro H. apply andb_true_iff in H. destruct H as [Hv Hr].
  destruct v; try discriminate Hv. simpl. rewrite (IH Hr). reflexivity.
Qed.

(** One turn of the loop follows the three rules, on a pull request whose
    title and labels are strings. *)
Lemma categorize_pr_rule (summary : summary_t) (p : pr) :
  well_typed p = true ->
  categorize_pr summary p
  = Ok (append_to (category_name (rule_category p)) (pr_line p) summary).
Proof.
  unfold well_typed. intro H. apply andb_true_iff in H. destruct H as [Ht Hl].
  unfold categorize_pr, rule_category, labels_match, title_starts.
  destruct (pr_title p) as [| | |title| |] eqn:Et; try discriminate Ht.
  cbn [as_str bind py_str]. rewrite (labels_lower_ok _ Hl). cbn [bind].
  destruct (any_in BUG_KEYWORDS _ || startswith (lower title) "fix"); [reflexivity|].
  destruct (any_in ENHANCEMENT_KEYWORDS _ || startswith (lower title) "feat");
    reflexivity.
Qed.

Lemma categorize_buckets (all_prs : list pr) :
  Forall (fun p => well_typed p = true) all_prs ->
  forall bugs enhancements others,
    categorize all_prs (summary_of bugs enhancements others)
    = Ok (summary_of (List.app bugs (lines_in BugFixes all_prs))
                     (List.app enhancements (lines_in Enhancements all_prs))
                     (List.app others (lines_in OtherChanges all_prs))).
Proof.
  induction 1 as [|p rest Hp _ IH]; intros bugs enhancements others.
  - simpl. unfold lines_in. simpl. now rewrite !app_nil_r.
  - cbn [categorize]. rewrite (categorize_pr_rule _ _ Hp). cbn [bind].
    unfold lines_in, in_category. cbn [filter].
    destruct (rule_category p); cbn [category_eqb category_name map].
    + change (append_to "Bug Fixes" (pr_line p) (summary_of bugs enhancements others))
        with (summary_of (List.app bugs [pr_line p]) enhancements others).
      rewrite IH. unfold lines_in, in_category. now rewrite <- app_assoc.
    + change (append_to "Enhancements/Features" (pr_line p)
                (summary_of bugs enhancements others))
        with (summary_of bugs (List.app enhancements [pr_line p]) others).
      rewrite IH. unfold lines_in, in_category. now rewrite <- app_assoc.
    + change (append_to "Other Changes" (pr_line p)
                (summary_of bugs enhancements others))
        with (summary_of bugs enhancements (List.app others [pr_line p])).
      rewrite IH. unfold lines_in, in_category. now rewrite <- app_assoc.
Qed.

Lemma partition_permutation (all_prs : list pr) :
  Permutation (map pr_line all_prs)
              (List.app (lines_in BugFixes all_prs)
                 (List.app (lines_in Enhancements all_prs)
                           (lines_in OtherChanges all_prs))).
Proof.
  unfold lines_in, in_category.
  induction all_prs as [|p rest IH]; simpl; [constructor|].
  destruct (rule_category p); simpl.
  - now constructor.
  - now apply Permutation_cons_app.
  - rewrite app_assoc. apply Permutation_cons_app. now rewrite <- app_assoc.
Qed.

Lemma in_category_unique (p : pr) :
  exists! c, in_category c p = true.
Proof.
  exists (rule_category p). unfold in_category. split.
  - destruct (rule_category p); reflexivity.
  - intros c H. destruct (rule_category p), c; (reflexivity || discriminate H).
Qed.

(** C2. On pull requests typed as the data model says, the categorization
    loop returns; each bucket holds, in order, the lines of the pull
    requests of its category, every pull request has exactly one category,
    the three buckets together are a rearrangement of all the lines, and a
    pull request whose labels match both keyword sets goes to Bug Fixes. *)
Theorem categorization_total_and_disjoint (all_prs : list pr) :
  Forall (fun p => well_typed p = true) all_prs ->
  exists summary,
    categorize all_prs empty_summary = Ok summary
    /\ map fst summary = ["Bug Fixes"; "Enhancements/Features"; "Other Changes"]
    /\ (forall c, bucket (category_name c) summary = lines_in c all_prs)
    /\ Permutation (map pr_line all_prs)
         (List.app (bucket "Bug Fixes" summary)
            (List.app (bucket "Enhancements/Features" summary)
                      (bucket "Other Changes" summary)))
    /\ (forall p, In p all_prs -> exists! c, in_category c p = true)
    /\ (forall p, In p all_prs ->
          labels_match BUG_KEYWORDS p = true ->
          labels_match ENHANCEMENT_KEYWORDS p = true ->
          in_category BugFixes p = true
          /\ forall s, categorize_pr s p = Ok (append_to "Bug Fixes" (pr_line p) s)).
Proof.
  intro Hty.
  exists (summary_of (lines_in BugFixes all_prs) (lines_in Enhancements all_prs)
                     (lines_in OtherChanges all_prs)).
  split; [exact (categorize_buckets all_prs Hty [] [] [])|].
  split; [reflexivity|].
  split; [intros []; reflexivity|].
  split; [exact (partition_permutation all_prs)|].
  split; [intros p _; exact (in_category_unique p)|].
  intros p Hin Hbug _.
  assert (Hrule : rule_category p = BugFixes).
  { unfold rule_category. rewrite Hbug. reflexivity. }
  split.
  - unfold in_category. rewrite Hrule. reflexivity.
  - intro s. rewrite categorize_pr_rule.
    + rewrite Hrule. reflexivity.
    + rewrite Forall_forall in Hty. exact (Hty p Hin).
Qed.

Lemma categorization_total_and_disjoint_witness :
  exists summary,
    categorize (List.app Scenario.three_prs [Scenario.both_labels]) empty_summary
    = Ok summary
    /\ bucket "Bug Fixes" summary = ["#5: Fix null pointer"; "#9: Rework the cache"]
    /\ bucket "Enhancements/Features" summary = ["#6: Add dark mode"]
    /\ bucket "Other Changes" summary = ["#7: Update docs"].
Proof.
  destruct (categorization_total_and_disjoint
              (List.app Scenario.three_prs [Scenario.both_labels]))
    as [summary [Hrun [_ [Hb _]]]].
  - repeat constructor.
  - exists summary. split; [exact Hrun|].
    split; [exact (Hb BugFixes) | split; [exact (Hb Enhancements) | exact (Hb OtherChanges)]].
Defined.

Example scenario3_buckets :
  categorize Scenario.three_prs empty_summary
  = Ok (summary_of ["#5: Fix null pointer"] ["#6: Add dark mode"] ["#7: Update docs"]).
Proof. reflexivity. Qed.

(** ** The report *)

Lemma report_sections_acc (summary : summary_t) (output_parts : list string) :
  report_sections summary output_parts
  = List.app output_parts (report_sections summary []).
Proof.
  revert output_parts.
  induction summary as [|[category items] r IH]; intro output_parts; simpl.
  - now rewrite app_nil_r.
  - destruct items as [|i items']; [apply IH|].
    rewrite IH. rewrite (IH (_ :: _)). rewrite <- !app_assoc. reflexivity.
Qed.

Lemma categorize_sizes (all_prs : list pr) :
  Forall (fun p => well_typed p = true) all_prs ->
  exists summary,
    categorize all_prs empty_summary = Ok summary
    /\ List.length all_prs
       = List.length (bucket "Bug Fixes" summary)
         + List.length (bucket "Enhancements/Features" summary)
         + List.length (bucket "Other Changes" summary).
Proof.
  intro Hty. eexists. split; [exact (categorize_buckets all_prs Hty [] [] [])|].
  cbn [bucket summary_of lookup String.eqb Ascii.eqb Bool.eqb List.app].
  rewrite <- (length_map pr_line all_prs).
  rewrite (Permutation_length (partition_permutation all_prs)).
  rewrite !length_app. lia.
Qed.

(** C7. When the release is found and the fetch gives a non-empty list of
    pull requests typed as the data model says, the tool returns the report
    whose second line gives as total the sum of the sizes of the three
    buckets, which is the number of pull requests fetched. *)
Theorem total_found_is_sum_of_buckets
    (w : World) (org_name repo_name tag_name : string)
    (resp : Response) (release_data since : pyval) (all_prs : list pr) :
  requests_get w (release_by_tag_request w org_name repo_name tag_name) = Ok resp ->
  status_code resp = 200%Z ->
  json resp = Ok release_data ->
  get release_data "published_at" (PStr (now_isoformat w)) = Ok since ->
  _fetch_merged_prs w org_name repo_name since = Ok all_prs ->
  all_prs <> [] ->
  Forall (fun p => well_typed p = true) all_prs ->
  exists summary,
    categorize all_prs empty_summary = Ok summary
    /\ let total := List.length (bucket "Bug Fixes" summary)
                    + List.length (bucket "Enhancements/Features" summary)
                    + List.length (bucket "Other Changes" summary) in
       List.length all_prs = total
       /\ get_release_prs w org_name repo_name tag_name
          = Ok (join NL
                  (("SUCCESS: Analysis for " ++ org_name ++ "/" ++ repo_name
                    ++ " release `" ++ tag_name ++ "`:")
                   :: ("Total Relevant PRs Found: " ++ dec (Z.of_nat total))
                   :: report_sections summary [])).
Proof.
  intros Hget Hst Hjson Hsince Hfetch Hne Hty.
  destruct (categorize_sizes all_prs Hty) as [summary [Hrun Hlen]].
  exists summary. split; [exact Hrun|]. cbv zeta.
  split; [exact Hlen|].
  unfold get_release_prs. rewrite make_api_call_eq.
  fold (release_by_tag_request w org_name repo_name tag_name).
  rewrite Hget. cbn [bind]. rewrite Hst. cbn [Z.eqb Pos.eqb negb].
  rewrite Hjson. cbn [bind]. rewrite Hsince. cbn [bind]. rewrite Hfetch.
  destruct all_prs as [|p rest]; [contradiction|].
  rewrite Hrun. cbn [bind]. rewrite report_sections_acc.
  unfold report_header. rewrite Hlen. reflexivity.
Qed.

Lemma total_found_is_sum_of_buckets_witness :
  exists summary,
    categorize Scenario.three_prs empty_summary = Ok summary
    /\ let total := List.length (bucket "Bug Fixes" summary)
                    + List.length (bucket "Enhancements/Features" summary)
                    + List.length (bucket "Other Changes" summary) in
       List.length Scenario.three_prs = total
       /\ get_release_prs (Scenario.repo_world Scenario.three_items)
            "o" "r" "v1.16.0"
          = Ok (join NL
                  (("SUCCESS: Analysis for " ++ "o" ++ "/" ++ "r"
                    ++ " release `" ++ "v1.16.0" ++ "`:")
                   :: ("Total Relevant PRs Found: " ++ dec (Z.of_nat total))
                   :: report_sections summary [])).
Proof.
  apply (total_found_is_sum_of_buckets
           (Scenario.repo_world Scenario.three_items) "o" "r" "v1.16.0"
           (Scenario.ok_json (Scenario.vault_release (PStr "Notes")))
           (Scenario.vault_release (PStr "Notes"))
           (PStr "2024-04-10T12:00:00Z")
           Scenario.three_prs).
  - reflexivity.
  - reflexivity.
  - reflexivity.
  - reflexivity.
  - reflexivity.
  - discriminate.
  - repeat constructor.
Defined.

Example scenario3_report :
  get_release_prs (Scenario.repo_world Scenario.three_items) "o" "r" "v1.16.0"
  = Ok (join NL ["SUCCESS: Analysis for o/r release `v1.16.0`:";
                 "Total Relevant PRs Found: 3";
                 NL ++ "--- Bug Fixes (1) ---"; "#5: Fix null pointer";
                 NL ++ "--- Enhancements/Features (1) ---"; "#6: Add dark mode";
                 NL ++ "--- Other Changes (1) ---"; "#7: Update docs"]).
Proof. reflexivity. Qed.

(** ** Label matching *)

Lemma labels_match_exact (keywords : list string) (labels : list string)
    (number title url : pyval) :
  labels_match keywords (mkPr number title (map PStr labels) url) = true
  <-> exists label, In label labels /\ In (lower label) keywords.
Proof.
  unfold labels_match. cbn [pr_labels]. rewrite any_in_exact, map_map. cbn [py_str].
  split.
  - intros [kw [Hk Hl]]. apply in_map_iff in Hl. destruct Hl as [label [<- Hin]].
    exists label. split; assumption.
  - intros [label [Hin Hk]]. exists (lower label). split; [exact Hk|].
    apply in_map_iff. exists label. split; [reflexivity | exact Hin].
Qed.

(** C10. A label counts for rule 1 or rule 2 exactly when its lower-cased
    text is equal to one of the keywords of the rule; the loop follows the
    three rules read that way; and a pull request whose only label is
    ["bugfix"] or ["bug-report"] goes to Other Changes, unless its
    lower-cased title starts with ["fix"] or ["feat"]. *)
Theorem label_matching_is_exact_equality
    (number url : pyval) (title : string) (labels : list string)
    (summary : summary_t) :
  let p := mkPr number (PStr title) (map PStr labels) url in
  let labelled keywords :=
    exists label, In label labels /\ In (lower label) keywords in
  (labels_match BUG_KEYWORDS p = true <-> labelled BUG_KEYWORDS)
  /\ (labels_match ENHANCEMENT_KEYWORDS p = true <-> labelled ENHANCEMENT_KEYWORDS)
  /\ categorize_pr summary p
     = Ok (append_to
             (if labels_match BUG_KEYWORDS p || startswith (lower title) "fix"
              then "Bug Fixes"
              else if labels_match ENHANCEMENT_KEYWORDS p
                      || startswith (lower title) "feat"
                   then "Enhancements/Features"
                   else "Other Changes")
             (pr_line p) summary)
  /\ (labels = ["bugfix"] \/ labels = ["bug-report"] ->
      startswith (lower title) "fix" = false ->
      startswith (lower title) "feat" = false ->
      categorize_pr summary p = Ok (append_to "Other Changes" (pr_line p) summary)).
Proof.
  intros p labelled.
  assert (Hty : well_typed p = true).
  { unfold well_typed, p. cbn [pr_title pr_labels is_str andb].
    induction labels as [|l r IH]; simpl; auto. }
  assert (Hrun : categorize_pr summary p
                 = Ok (append_to
                         (if labels_match BUG_KEYWORDS p || startswith (lower title) "fix"
                          then "Bug Fixes"
                          else if labels_match ENHANCEMENT_KEYWORDS p
                                  || startswith (lower title) "feat"
                               then "Enhancements/Features"
                               else "Other Changes")
                         (pr_line p) summary)).
  { rewrite (categorize_pr_rule summary p Hty). unfold rule_category, title_starts.
    cbn [pr_title p py_str].
    destruct (labels_match BUG_KEYWORDS _ || startswith (lower title) "fix");
      [reflexivity|].
    destruct (labels_match ENHANCEMENT_KEYWORDS _ || startswith (lower title) "feat");
      reflexivity. }
  split; [apply labels_match_exact|].
  split; [apply labels_match_exact|].
  split; [exact Hrun|].
  intros Hlabels Hfix Hfeat. rewrite Hrun, Hfix, Hfeat.
  destruct Hlabels as [E|E]; unfold p; rewrite E; reflexivity.
Qed.

Lemma label_matching_is_exact_equality_witness :
  categorize_pr empty_summary
    (mkPr (PInt 12) (PStr "Tidy the logs") (map PStr ["bugfix"]) (PStr "u12"))
  = Ok (append_to "Other Changes" "#12: Tidy the logs" empty_summary).
Proof.
  apply (proj2 (proj2 (proj2
           (label_matching_is_exact_equality
              (PInt 12) (PStr "u12") "Tidy the logs" ["bugfix"] empty_summary)))).
  - left. reflexivity.
  - reflexivity.
  - reflexivity.
Defined.

Example label_case_is_ignored :
  categorize_pr empty_summary (mkPr (PInt 13) (PStr "Tidy the logs") [PStr "HotFix"] PNone)
  = Ok (summary_of ["#13: Tidy the logs"] [] []).
Proof. reflexivity. Qed.

Example label_substring_does_not_count :
  categorize_pr empty_summary
    (mkPr (PInt 14) (PStr "Tidy the logs") [PStr "bug-report"; PStr "features"] PNone)
  = Ok (summary_of [] [] ["#14: Tidy the logs"]).
Proof. reflexivity. Qed.

(** ** The tool-calling loop *)

Lemma tool_result_for (w : World) (c : FunctionCall) :
  (forall f, lookup (name c) AVAILABLE_TOOLS = Some f -> returns (f w (args c))) ->
  exists part, tool_result w c = Ok part /\ result_for w c part.
Proof.
  intro Hret. unfold tool_result, result_for.
  destruct (lookup (name c) AVAILABLE_TOOLS) as [f|] eqn:Ef.
  - destruct (Hret f eq_refl) as [tool_output Hout].
    rewrite Hout. cbn [bind]. eexists. split; [reflexivity|].
    split; [reflexivity|]. exists tool_output. split; reflexivity.
  - eexists. split; [reflexivity|]. split; reflexivity.
Qed.

(** The loop of a round adds one part per request, in the order of the
    requests. *)
Lemma run_round_parts (w : World) (calls : list FunctionCall) :
  tools_return w calls ->
  forall tool_results,
  exists parts,
    run_round w calls tool_results = Ok (List.app tool_results parts)
    /\ Forall2 (result_for w) calls parts.
Proof.
  induction 1 as [|c rest Hc _ IH]; intro tool_results.
  - exists []. split; [now rewrite app_nil_r | constructor].
  - destruct (tool_result_for w c Hc) as [part [Hpart Hfor]].
    destruct (IH (List.app tool_results [part])) as [parts [Hrun Hall]].
    exists (part :: parts). split.
    + cbn [run_round]. rewrite Hpart. cbn [bind]. rewrite Hrun.
      now rewrite <- app_assoc.
    + now constructor.
Qed.

(** Scenario 5: a reply without tool requests ends the loop. *)
Lemma handle_tool_call_done
    (fuel : nat) (w : World) (chat_session : chat) (st : state)
    (response : ModelResponse) :
  function_calls response = [] ->
  handle_tool_call fuel w chat_session st response
  = Some (mkState (S (gemini_calls st)) (sent st), Ok response).
Proof.
  intro H. destruct fuel; simpl; rewrite H; reflexivity.
Qed.

(** C6 as stated fails: a request for a registered tool whose arguments
    leave out a required parameter gets no result; the [TypeError] of the
    call ends the loop and no batch is submitted. *)
Lemma round_halts_on_unbound_argument :
  let w := Scenario.not_found in
  let response := mkModelResponse [Scenario.unbound_call] "" in
  let st := mkState 1 [] in
  ~ (exists tool_results,
        run_round w (function_calls response) [] = Ok tool_results
        /\ Forall2 (result_for w) (function_calls response) tool_results)
  /\ handle_tool_call 3 w Scenario.closing_chat st response
     = Some (st, Raise (Exn TypeError
         "check_latest_release() missing 1 required positional argument: 'repo_name'")).
Proof.
  split; [|reflexivity].
  intros [tool_results [Hrun _]]. vm_compute in Hrun. discriminate Hrun.
Qed.

(** The first call of a round that raises ends the round with its
    exception. *)
Lemma run_round_raises (w : World) (before : list FunctionCall) :
  tools_return w before ->
  forall (c : FunctionCall) (after : list FunctionCall) (f : tool) (e : exn)
         (tool_results : list Part),
    lookup (name c) AVAILABLE_TOOLS = Some f ->
    f w (args c) = Raise e ->
    run_round w (List.app before (c :: after)) tool_results = Raise e.
Proof.
  induction 1 as [|b rest Hb _ IH]; intros c after f e tool_results Hf He.
  - cbn [List.app run_round]. unfold tool_result. rewrite Hf, He. reflexivity.
  - destruct (tool_result_for w b Hb) as [part [Hpart _]].
    cbn [List.app run_round]. rewrite Hpart. cbn [bind].
    exact (IH c after f e _ Hf He).
Qed.

(** In a round either every call of a registered tool returns, or there is
    a first one that raises. *)
Lemma round_cases (w : World) (calls : list FunctionCall) :
  tools_return w calls
  \/ exists before c after f e,
       calls = List.app before (c :: after)
       /\ tools_return w before
       /\ lookup (name c) AVAILABLE_TOOLS = Some f
       /\ f w (args c) = Raise e.
Proof.
  induction calls as [|c rest IH].
  - left. constructor.
  - destruct (lookup (name c) AVAILABLE_TOOLS) as [f|] eqn:Ef.
    + destruct (f w (args c)) as [out|e] eqn:Eout.
      * destruct IH as [Hall | [before [c' [after [f' [e' [-> [Hb [Hf He]]]]]]]]].
        -- left. constructor; [|exact Hall].
           intros g Hg. rewrite Ef in Hg. injection Hg as <-. now exists out.
        -- right. exists (c :: before), c', after, f', e'.
           split; [reflexivity|]. split; [|split; assumption].
           constructor; [|exact Hb].
           intros g Hg. rewrite Ef in Hg. injection Hg as <-. now exists out.
      * right. exists [], c, rest, f, e.
        split; [reflexivity|]. split; [constructor | split; assumption].
    + destruct IH as [Hall | [before [c' [after [f' [e' [-> [Hb [Hf He]]]]]]]]].
      * left. constructor; [|exact Hall]. intros g Hg. rewrite Ef in Hg. discriminate.
      * right. exists (c :: before), c', after, f', e'.
        split; [reflexivity|]. split; [|split; assumption].
        constructor; [|exact Hb]. intros g Hg. rewrite Ef in Hg. discriminate.
Qed.

(** C6 (amended). In a round in which every call of a registered tool
    returns, each request gets exactly one result, in the order of the
    requests: the tool's output under the key [output] when the name is
    registered, the text that the function was not found under the key
    [error] when it is not; and the results are submitted to the chat
    session as one batch, which is the last thing the session has received
    when it is asked for the next reply.  In any other round a call of a
    registered tool raises; the first such call ends the loop with its
    exception, the state is left as it was and no batch is submitted. *)
Theorem round_gives_one_result_per_request
    (fuel : nat) (w : World) (chat_session : chat) (st : state)
    (response : ModelResponse) :
  function_calls response <> [] ->
  (tools_return w (function_calls response) ->
   exists tool_results,
     run_round w (function_calls response) [] = Ok tool_results
     /\ Forall2 (result_for w) (function_calls response) tool_results
     /\ handle_tool_call (S fuel) w chat_session st response
        = let st' := mkState (S (gemini_calls st))
                             (List.app (sent st) [tool_results]) in
          match chat_session (sent st') with
          | Raise e => Some (st', Raise e)
          | Ok response' => handle_tool_call fuel w chat_session st' response'
          end)
  /\ (forall before c after f e,
        function_calls response = List.app before (c :: after) ->
        tools_return w before ->
        lookup (name c) AVAILABLE_TOOLS = Some f ->
        f w (args c) = Raise e ->
        run_round w (function_calls response) [] = Raise e
        /\ handle_tool_call (S fuel) w chat_session st response
           = Some (st, Raise e))
  /\ (tools_return w (function_calls response)
      \/ exists before c after f e,
           function_calls response = List.app before (c :: after)
           /\ tools_return w before
           /\ lookup (name c) AVAILABLE_TOOLS = Some f
           /\ f w (args c) = Raise e).
Proof.
  intros Hne. split; [|split].
  - intro Hret.
    destruct (run_round_parts w _ Hret []) as [parts [Hrun Hall]].
    exists parts. split; [exact Hrun|]. split; [exact Hall|].
    cbn [handle_tool_call].
    destruct (function_calls response) as [|c rest]; [contradiction|].
    cbn [List.app] in Hrun. rewrite Hrun. reflexivity.
  - intros before c after f e Hcalls Hb Hf He.
    pose proof (run_round_raises w before Hb c after f e [] Hf He) as Hrun.
    rewrite <- Hcalls in Hrun. split; [exact Hrun|].
    cbn [handle_tool_call].
    destruct (function_calls response) as [|c0 rest]; [contradiction|].
    rewrite Hrun. reflexivity.
  - apply round_cases.
Qed.

Lemma round_gives_one_result_per_request_witness :
  let w := Scenario.not_found in
  let response := mkModelResponse Scenario.two_calls "" in
  let failing := mkModelResponse (List.app Scenario.two_calls [Scenario.unbound_call]) "" in
  (exists tool_results,
     run_round w (function_calls response) [] = Ok tool_results
     /\ Forall2 (result_for w) (function_calls response) tool_results
     /\ handle_tool_call 3 w Scenario.closing_chat (mkState 1 []) response
        = Some (mkState 3 [tool_results], Ok Scenario.final_answer))
  /\ handle_tool_call 3 w Scenario.closing_chat (mkState 1 []) failing
     = Some (mkState 1 [],
             Raise (Exn TypeError
               "check_latest_release() missing 1 required positional argument: 'repo_name'")).
Proof.
  intros w response failing.
  assert (Hret : tools_return w Scenario.two_calls).
  { apply Forall_cons; [|apply Forall_cons; [|apply Forall_nil]]; intros f Hf.
    - injection Hf as <-. eexists. vm_compute. reflexivity.
    - discriminate Hf. }
  split.
  - destruct (round_gives_one_result_per_request
                2 w Scenario.closing_chat (mkState 1 []) response)
      as [Hgood _]; [discriminate|].
    destruct (Hgood Hret) as [tool_results [Hrun [Hall Hloop]]].
    exists tool_results. split; [exact Hrun|]. split; [exact Hall|].
    rewrite Hloop. reflexivity.
  - destruct (round_gives_one_result_per_request
                2 w Scenario.closing_chat (mkState 1 []) failing)
      as [_ [Hbad _]]; [discriminate|].
    apply (Hbad Scenario.two_calls Scenario.unbound_call []
                call_check_latest_release); [reflexivity | exact Hret | reflexivity | reflexivity].
Defined.

Example scenario4_unregistered_tool :
  run_round Scenario.not_found Scenario.two_calls []
  = Ok [mkPart "get_release_prs"
          [("output", PStr "ERROR: Could not find release tag `v0.0.0` for categorization. Status: 404.")];
        mkPart "delete_repository"
          [("error", PStr "Function delete_repository not found.")]].
Proof. reflexivity. Qed.

(** * Further properties of the two files *)

(** ** Text lemmas *)

Lemma split_nonempty (sep : ascii) (s : string) : split sep s <> [].
Proof.
  destruct s as [|c r]; simpl; [discriminate|].
  destruct (Ascii.eqb c sep); [discriminate|].
  destruct (split sep r); discriminate.
Qed.

(** Joining the pieces of a split with the separator gives the text back. *)
Lemma join_split (s : string) : join NL (split nl s) = s.
Proof.
  unfold join. induction s as [|c r IH]; [reflexivity|].
  cbn [split]. destruct (Ascii.eqb_spec c nl) as [->|_].
  - pose proof (split_nonempty nl r) as Hne.
    destruct (split nl r) as [|h t]; [contradiction|].
    change (String.concat NL (EmptyString :: h :: t))
      with (String nl (String.concat NL (h :: t))).
    now rewrite IH.
  - pose proof (split_nonempty nl r) as Hne.
    destruct (split nl r) as [|h t]; [contradiction|].
    rewrite <- IH. destruct t; reflexivity.
Qed.





Lemma prefix_append (d t : string) : String.prefix d (d ++ t) = true.
Proof.
  induction d as [|c d IH]; simpl.
  - destruct t; reflexivity.
  - destruct (ascii_dec c c) as [_|n]; [exact IH | now elim n].
Qed.

Lemma contains_unfold (s p : string) :
  contains s p
  = (String.prefix p s
     || match s with EmptyString => false | String _ r => contains r p end).
Proof. destruct s; reflexivity. Qed.

Lemma contains_append (pre d t : string) : contains (pre ++ d ++ t) d = true.
Proof.
  induction pre as [|c pre IH].
  - cbn [String.append]. rewrite contains_unfold, prefix_append. reflexivity.
  - rewrite contains_unfold. cbn [String.append]. rewrite IH. apply orb_true_r.
Qed.

(** ** The request headers *)

(** X1. Every request carries its [Accept] header; it carries an
    [Authorization] header exactly when [GITHUB_TOKEN] is set to a
    non-empty text, and the headers [get_dependency_file] builds for itself
    agree on it with [_get_auth_headers]. *)
Theorem authorization_header_needs_token
    (w : World) (org_name repo_name file_path : string) :
  lookup "Accept" (_get_auth_headers w) = Some "application/vnd.github.v3+json"
  /\ lookup "Accept" (headers (dependency_file_request w org_name repo_name file_path))
     = Some "application/vnd.github.v3.raw"
  /\ lookup "Authorization" (_get_auth_headers w)
     = match getenv w "GITHUB_TOKEN" with
       | Some token => if String.eqb token "" then None else Some ("token " ++ token)
       | None => None
       end
  /\ lookup "Authorization"
       (headers (dependency_file_request w org_name repo_name file_path))
     = lookup "Authorization" (_get_auth_headers w).
Proof.
  unfold _get_auth_headers, dependency_file_request. cbn [headers].
  destruct (getenv w "GITHUB_TOKEN") as [token|]; [|repeat split; reflexivity].
  destruct (String.eqb token ""); repeat split; reflexivity.
Qed.

(** ** Tool 1 and tool 2 on HTTP errors *)

(** X2. For a status other than 200 and 404 the two tools give the same
    error text, which names the status, and neither reads the body of the
    response. *)
Theorem siblings_agree_on_http_errors
    (w : World) (org_name repo_name file_path : string) (resp resp' : Response) :
  requests_get w (latest_release_request w org_name repo_name) = Ok resp ->
  requests_get w (dependency_file_request w org_name repo_name file_path) = Ok resp' ->
  status_code resp' = status_code resp ->
  status_code resp <> 200%Z ->
  status_code resp <> 404%Z ->
  exists message,
    check_latest_release w org_name repo_name = Ok message
    /\ get_dependency_file w org_name repo_name file_path = Ok message
    /\ startswith message "ERROR: GitHub API failed with status code " = true
    /\ contains message (dec (status_code resp)) = true.
Proof.
  intros Hget Hget' Hsame H200 H404.
  unfold check_latest_release, get_dependency_file.
  rewrite !make_api_call_eq.
  fold (latest_release_request w org_name repo_name).
  change (requests_get w (mkRequest _ _ None))
    with (requests_get w (dependency_file_request w org_name repo_name file_path)).
  rewrite Hget, Hget'. cbn [bind try_except]. rewrite Hsame.
  destruct (Z.eqb_spec (status_code resp) 404) as [|_]; [contradiction|].
  destruct (Z.eqb_spec (status_code resp) 200) as [|_]; [contradiction|].
  destruct (Z.eqb_spec (status_code resp) 403) as [E|_].
  - eexists. split; [reflexivity|]. split; [reflexivity|]. rewrite E.
    split; reflexivity.
  - cbn [negb]. eexists. split; [reflexivity|]. split; [reflexivity|].
    split; [apply prefix_append|].
    exact (contains_append "ERROR: GitHub API failed with status code "
                           (dec (status_code resp)) ".").
Qed.

Lemma siblings_agree_on_http_errors_witness :
  exists message,
    check_latest_release server_error "hashicorp" "vault" = Ok message
    /\ get_dependency_file server_error "hashicorp" "vault" "go.mod" = Ok message
    /\ startswith message "ERROR: GitHub API failed with status code " = true
    /\ contains message (dec 500) = true.
Proof.
  apply (siblings_agree_on_http_errors server_error "hashicorp" "vault" "go.mod"
           (mkResponse 500 "Internal Server Error"
              (Raise (Exn ValueError "Expecting value")))
           (mkResponse 500 "Internal Server Error"
              (Raise (Exn ValueError "Expecting value"))));
    first [reflexivity | discriminate].
Defined.

(** ** Tool 1: missing fields, exceptions, the snippet *)

(** X3. A release object without the four fields the tool reads is
    reported with [N/A] for the tag, the date and the address and with an
    empty snippet; no key is required. *)
Theorem latest_release_defaults
    (w : World) (org_name repo_name : string) (resp : Response)
    (d : list (string * pyval)) :
  requests_get w (latest_release_request w org_name repo_name) = Ok resp ->
  status_code resp = 200%Z ->
  json resp = Ok (PDict d) ->
  lookup "tag_name" d = None ->
  lookup "published_at" d = None ->
  lookup "html_url" d = None ->
  lookup "body" d = None ->
  check_latest_release w org_name repo_name
  = Ok ("SUCCESS: **" ++ org_name ++ "/" ++ repo_name
        ++ "** Latest Release: **N/A** | Published: N/A. Release URL: N/A. Notes Snippet: "
        ++ dquote ++ "..." ++ dquote).
Proof.
  intros Hget Hst Hjson Htag Hpub Hurl Hbody.
  unfold check_latest_release. rewrite make_api_call_eq.
  fold (latest_release_request w org_name repo_name).
  rewrite Hget. cbn [bind try_except]. rewrite Hst. cbn [Z.eqb Pos.eqb negb].
  rewrite Hjson. cbn [bind get]. rewrite Htag, Hpub, Hurl, Hbody. reflexivity.
Qed.

Lemma latest_release_defaults_witness :
  check_latest_release bare_world "hashicorp" "vault"
  = Ok ("SUCCESS: **" ++ "hashicorp" ++ "/" ++ "vault"
        ++ "** Latest Release: **N/A** | Published: N/A. Release URL: N/A. Notes Snippet: "
        ++ dquote ++ "..." ++ dquote).
Proof.
  apply (latest_release_defaults bare_world "hashicorp" "vault"
           (Scenario.ok_json (PDict [])) []); reflexivity.
Defined.

Lemma try_except_raise {A} (body : result A) (catches : exn -> bool)
    (handler : exn -> result A) (e : exn) :
  (forall e', returns (handler e')) ->
  try_except body catches handler = Raise e ->
  body = Raise e /\ catches e = false.
Proof.
  intros Hh H. destruct body as [a|e0]; simpl in H; [discriminate|].
  destruct (catches e0) eqn:Ec.
  - destruct (Hh e0) as [x Hx]. rewrite Hx in H. discriminate.
  - injection H as <-. split; [reflexivity | exact Ec].
Qed.

(** X4. [check_latest_release] never lets a request exception out: what it
    raises is of another class.  A request exception raised while the body
    of a 200 answer is decoded is reported as a network issue. *)
Theorem check_latest_release_filters_request_exceptions
    (w : World) (org_name repo_name : string) :
  (forall e, check_latest_release w org_name repo_name = Raise e ->
             is_request_exception e = false)
  /\ (forall resp e,
        requests_get w (latest_release_request w org_name repo_name) = Ok resp ->
        status_code resp = 200%Z ->
        json resp = Raise e ->
        check_latest_release w org_name repo_name
        = if is_request_exception e
          then Ok ("TOOL_ERROR: Network or connection issue: " ++ exn_msg e)
          else Raise e).
Proof.
  split.
  - intros e H. unfold check_latest_release in H.
    apply try_except_raise in H; [tauto|].
    intro e'. eexists. reflexivity.
  - intros resp e Hget Hst Hjson.
    unfold check_latest_release. rewrite make_api_call_eq.
    fold (latest_release_request w org_name repo_name).
    rewrite Hget. cbn [bind]. rewrite Hst. cbn [Z.eqb Pos.eqb negb].
    rewrite Hjson. reflexivity.
Qed.

Lemma check_latest_release_filters_request_exceptions_witness :
  check_latest_release (undecodable (Exn RequestException "Expecting value"))
    "hashicorp" "vault"
  = Ok "TOOL_ERROR: Network or connection issue: Expecting value"
  /\ check_latest_release (undecodable (Exn ValueError "Expecting value"))
       "hashicorp" "vault"
     = Raise (Exn ValueError "Expecting value")
  /\ is_request_exception (Exn ValueError "Expecting value") = false.
Proof.
  split; [|split].
  - apply (proj2 (check_latest_release_filters_request_exceptions
                    (undecodable (Exn RequestException "Expecting value"))
                    "hashicorp" "vault")
                 (mkResponse 200 "<html>" (Raise (Exn RequestException "Expecting value")))
                 (Exn RequestException "Expecting value")); reflexivity.
  - reflexivity.
  - apply (proj1 (check_latest_release_filters_request_exceptions
                    (undecodable (Exn ValueError "Expecting value"))
                    "hashicorp" "vault")). reflexivity.
Defined.







(** ** Tool 2 *)

(** X6. [get_dependency_file] returns on every outcome of its request, and
    what it returns starts with a status prefix. *)
Theorem get_dependency_file_always_answers
    (w : World) (org_name repo_name file_path : string) :
  exists s,
    get_dependency_file w org_name repo_name file_path = Ok s
    /\ has_status_prefix s = true.
Proof.
  destruct (get_dependency_file_returns w org_name repo_name file_path) as [s Hs].
  exists s. split; [exact Hs|].
  exact (get_dependency_file_prefixed w org_name repo_name file_path s Hs).
Qed.

(** X7. A file of at most ten lines is shown whole: the fenced block holds
    the content as it was fetched. *)
Theorem short_dependency_file_is_shown_whole
    (w : World) (org_name repo_name file_path : string) (resp : Response) :
  requests_get w (dependency_file_request w org_name repo_name file_path) = Ok resp ->
  status_code resp = 200%Z ->
  List.length (split nl (text resp)) <= 10 ->
  get_dependency_file w org_name repo_name file_path
  = Ok ("SUCCESS: Content of `" ++ file_path ++ "`:" ++ NL ++ "```" ++ NL
        ++ text resp ++ NL ++ "```").
Proof.
  intros Hget Hst Hlen.
  unfold get_dependency_file. rewrite make_api_call_eq.
  change (requests_get w (mkRequest _ _ None))
    with (requests_get w (dependency_file_request w org_name repo_name file_path)).
  rewrite Hget. cbn [bind try_except]. rewrite Hst. cbn [Z.eqb Pos.eqb negb].
  rewrite (firstn_all2 _ Hlen), join_split. reflexivity.
Qed.

Lemma short_dependency_file_is_shown_whole_witness :
  get_dependency_file (Scenario.file_world (join NL ["module vault"; ""; "go 1.22"]))
    "hashicorp" "vault" "go.mod"
  = Ok ("SUCCESS: Content of `" ++ "go.mod" ++ "`:" ++ NL ++ "```" ++ NL
        ++ join NL ["module vault"; ""; "go 1.22"] ++ NL ++ "```").
Proof.
  apply (short_dependency_file_is_shown_whole
           (Scenario.file_world (join NL ["module vault"; ""; "go 1.22"]))
           "hashicorp" "vault" "go.mod"
           (mkResponse 200 (join NL ["module vault"; ""; "go 1.22"])
              (Raise (Exn ValueError "not JSON")))).
  - reflexivity.
  - reflexivity.
  - vm_compute. lia.
Defined.

(** ** The fetch: which items count, and what a bad item does *)

(** X8. An item without the key [pull_request] is passed over, and so is a
    pull request whose [merged_at] is missing or [null]; an item whose
    [pull_request] is [null] makes the test raise. *)
Theorem eligible_edge_cases (d : list (string * pyval)) :
  (lookup "pull_request" d = None -> eligible (PDict d) = Ok false)
  /\ (forall pd, lookup "pull_request" d = Some (PDict pd) ->
        lookup "merged_at" pd = None \/ lookup "merged_at" pd = Some PNone ->
        eligible (PDict d) = Ok false)
  /\ (forall pd merged_at, lookup "pull_request" d = Some (PDict pd) ->
        lookup "merged_at" pd = Some merged_at ->
        eligible (PDict d) = Ok (truthy merged_at))
  /\ (lookup "pull_request" d = Some PNone ->
      eligible (PDict d)
      = Raise (Exn AttributeError "'NoneType' object has no attribute 'get'")).
Proof.
  unfold eligible. cbn [py_in bind get]. unfold has_key.
  repeat split.
  - intros ->. reflexivity.
  - intros pd -> [Hm|Hm]; cbn [bind get]; rewrite Hm; reflexivity.
  - intros pd merged_at -> Hm. cbn [bind get]. rewrite Hm. reflexivity.
  - intros ->. reflexivity.
Qed.

Lemma eligible_edge_cases_witness :
  eligible (Scenario.plain_issue 8 "Question") = Ok false
  /\ eligible (unmerged 9 "Abandoned") = Ok false
  /\ eligible (Scenario.merged 5 "Fix null pointer" []) = Ok true.
Proof.
  split; [|split].
  - apply (proj1 (eligible_edge_cases _)). reflexivity.
  - apply (proj1 (proj2 (eligible_edge_cases _)) [("merged_at", PNone)]).
    + reflexivity.
    + right. reflexivity.
  - apply (proj1 (proj2 (proj2 (eligible_edge_cases _)))
             [("merged_at", PStr "2024-04-11T09:00:00Z")]
             (PStr "2024-04-11T09:00:00Z")); reflexivity.
Defined.

Lemma collect_prs_raises (items : list pyval) (item : pyval) :
  In item items ->
  is_eligible item = true ->
  raises (pr_of_item item) ->
  forall prs, raises (collect_prs items prs).
Proof.
  intros Hin Hel [e He].
  induction items as [|x rest IH]; [contradiction|]. intro prs.
  cbn [collect_prs]. unfold bind.
  destruct (eligible x) as [[|]|ex] eqn:Ex.
  - destruct (pr_of_item x) as [p|ep] eqn:Ep.
    + destruct Hin as [->|Hin]; [rewrite He in Ep; discriminate|].
      apply (IH Hin).
    + eexists. reflexivity.
  - destruct Hin as [->|Hin].
    + unfold is_eligible in Hel. rewrite Ex in Hel. discriminate.
    + apply (IH Hin).
  - eexists. reflexivity.
Qed.

(** X9. One item of the page that passes the test but lacks [number],
    [title] or [html_url] makes the whole fetch raise: no pull request of
    the page is returned. *)
Theorem malformed_item_discards_the_page
    (w : World) (org_name repo_name : string) (since : pyval) (resp : Response)
    (items : list pyval) (d : list (string * pyval)) :
  requests_get w (issues_request w org_name repo_name since) = Ok resp ->
  status_code resp = 200%Z ->
  json resp = Ok (PList items) ->
  In (PDict d) items ->
  is_eligible (PDict d) = true ->
  lookup "number" d = None \/ lookup "title" d = None \/ lookup "html_url" d = None ->
  raises (_fetch_merged_prs w org_name repo_name since).
Proof.
  intros Hget Hst Hjson Hin Hel Hmiss.
  rewrite (fetch_merged_prs_unfold _ _ _ _ _ Hget), Hst, Hjson.
  cbn [Z.eqb Pos.eqb negb bind iterate].
  apply (collect_prs_raises items (PDict d) Hin Hel).
  unfold pr_of_item. cbn [getitem bind].
  destruct (lookup "number" d) as [number|]; [|eexists; reflexivity].
  cbn [bind].
  destruct (lookup "title" d) as [title|]; [|eexists; reflexivity].
  cbn [bind].
  destruct (lookup "html_url" d) as [html_url|];
    [destruct Hmiss as [H|[H|H]]; discriminate H|].
  destruct (get (PDict d) "labels" (PList [])) as [l|]; [|eexists; reflexivity].
  cbn [bind]. destruct (iterate l) as [ls|]; [|eexists; reflexivity].
  cbn [bind]. destruct (mapM _ ls); eexists; reflexivity.
Qed.

Lemma malformed_item_discards_the_page_witness :
  raises (_fetch_merged_prs
            (Scenario.repo_world [Scenario.merged 5 "Fix null pointer" [];
                                  numberless "Add dark mode"])
            "o" "r" PNone).
Proof.
  apply (malformed_item_discards_the_page
           (Scenario.repo_world [Scenario.merged 5 "Fix null pointer" [];
                                 numberless "Add dark mode"])
           "o" "r" PNone
           (Scenario.ok_json (PList [Scenario.merged 5 "Fix null pointer" [];
                                     numberless "Add dark mode"]))
           [Scenario.merged 5 "Fix null pointer" []; numberless "Add dark mode"]
           [("title", PStr "Add dark mode");
            ("html_url", PStr "https://github.com/o/r/pull");
            ("pull_request", PDict [("merged_at", PStr "2024-04-11T09:00:00Z")])]).
  - reflexivity.
  - reflexivity.
  - reflexivity.
  - right. left. reflexivity.
  - reflexivity.
  - left. reflexivity.
Defined.

(** X10. Whatever the fetch raises, [get_release_prs] returns it as a
    [TOOL_ERROR:] result that carries the text of the exception. *)
Theorem fetch_failure_becomes_tool_error
    (w : World) (org_name repo_name tag_name : string)
    (resp : Response) (release_data since : pyval) (e : exn) :
  requests_get w (release_by_tag_request w org_name repo_name tag_name) = Ok resp ->
  status_code resp = 200%Z ->
  json resp = Ok release_data ->
  get release_data "published_at" (PStr (now_isoformat w)) = Ok since ->
  _fetch_merged_prs w org_name repo_name since = Raise e ->
  get_release_prs w org_name repo_name tag_name
  = Ok ("TOOL_ERROR: Failed to fetch PRs for release. Error: " ++ exn_msg e).
Proof.
  intros Hget Hst Hjson Hsince Hfetch.
  unfold get_release_prs. rewrite make_api_call_eq.
  fold (release_by_tag_request w org_name repo_name tag_name).
  rewrite Hget. cbn [bind]. rewrite Hst. cbn [Z.eqb Pos.eqb negb].
  rewrite Hjson. cbn [bind]. rewrite Hsince. cbn [bind]. rewrite Hfetch.
  reflexivity.
Qed.

Lemma fetch_failure_becomes_tool_error_witness :
  get_release_prs
    (Scenario.repo_world [numberless "Add dark mode"]) "o" "r" "v1.16.0"
  = Ok ("TOOL_ERROR: Failed to fetch PRs for release. Error: "
        ++ exn_msg (Exn KeyError "'number'")).
Proof.
  apply (fetch_failure_becomes_tool_error
           (Scenario.repo_world [numberless "Add dark mode"]) "o" "r" "v1.16.0"
           (Scenario.ok_json (Scenario.vault_release (PStr "Notes")))
           (Scenario.vault_release (PStr "Notes"))
           (PStr "2024-04-10T12:00:00Z")
           (Exn KeyError "'number'")); reflexivity.
Defined.

(** ** The categorizer on any pull requests *)

Lemma labels_lower_returns (labels : list pyval) (ls : list string) :
  mapM (fun label => l <- as_str "lower" label ;; Ok (lower l)) labels = Ok ls ->
  forallb is_str labels = true.
Proof.
  revert ls. induction labels as [|v r IH]; intros ls H; [reflexivity|].
  cbn [mapM] in H. destruct v; try discriminate H.
  cbn [as_str bind] in H.
  destruct (mapM _ r) as [ls'|] eqn:Er; [|discriminate].
  cbn [forallb is_str andb]. exact (IH ls' eq_refl).
Qed.

Lemma categorize_pr_returns (summary summary' : summary_t) (p : pr) :
  categorize_pr summary p = Ok summary' -> well_typed p = true.
Proof.
  unfold categorize_pr, well_typed, bind. intro H.
  destruct (pr_title p); try discriminate H. cbn [as_str] in H.
  destruct (mapM _ (pr_labels p)) as [ls|] eqn:El; [|discriminate].
  cbn [is_str andb]. exact (labels_lower_returns _ _ El).
Qed.

(** X11. The categorization loop returns exactly when every pull request
    has a string for title and strings for labels; a single other value
    makes it raise, whatever the summary it started from. *)
Theorem categorize_returns_iff_well_typed (all_prs : list pr) (summary : summary_t) :
  returns (categorize all_prs summary)
  <-> Forall (fun p => well_typed p = true) all_prs.
Proof.
  split.
  - revert summary. induction all_prs as [|p rest IH]; intros summary [s H].
    + constructor.
    + cbn [categorize] in H. apply bind_ok in H. destruct H as [s' [Hp Hrest]].
      constructor.
      * exact (categorize_pr_returns _ _ _ Hp).
      * apply (IH s'). exists s. exact Hrest.
  - intro Hty. revert summary.
    induction Hty as [|p rest Hp _ IH]; intro summary.
    + eexists. reflexivity.
    + cbn [categorize]. rewrite (categorize_pr_rule _ _ Hp). cbn [bind]. apply IH.
Qed.

Lemma categorize_returns_iff_well_typed_witness :
  returns (categorize Scenario.three_prs empty_summary)
  /\ ~ returns (categorize [mkPr (PInt 3) PNone [] PNone] empty_summary).
Proof.
  split.
  - apply (proj2 (categorize_returns_iff_well_typed Scenario.three_prs empty_summary)).
    repeat constructor.
  - intro H.
    apply (proj1 (categorize_returns_iff_well_typed _ _)) in H.
    inversion H as [|? ? Hp _]. discriminate Hp.
Defined.

(** ** The layout of the report *)





(** ** The registry and the loop *)

(** X13. Whatever a registered tool returns when it is called through the
    registry, with any keyword arguments, starts with a status prefix. *)
Theorem registered_tools_answer_with_a_prefix
    (w : World) (tool_name : string) (f : tool)
    (args : list (string * pyval)) (s : string) :
  lookup tool_name AVAILABLE_TOOLS = Some f ->
  f w args = Ok s ->
  has_status_prefix s = true.
Proof.
  unfold AVAILABLE_TOOLS. cbn [lookup]. intros Hf Hs.
  destruct (String.eqb tool_name "check_latest_release");
    [injection Hf as <-|
     destruct (String.eqb tool_name "get_dependency_file");
     [injection Hf as <-|
      destruct (String.eqb tool_name "get_release_prs");
      [injection Hf as <-|discriminate Hf]]].
  - unfold call_check_latest_release, bind in Hs.
    destruct (bind_kwargs _ _ args) as [[|a [|b [|c vs]]]|]; try discriminate Hs.
    exact (check_latest_release_prefixed _ _ _ _ Hs).
  - unfold call_get_dependency_file, bind in Hs.
    destruct (bind_kwargs _ _ args) as [[|a [|b [|c [|x vs]]]]|]; try discriminate Hs.
    exact (get_dependency_file_prefixed _ _ _ _ _ Hs).
  - unfold call_get_release_prs, bind in Hs.
    destruct (bind_kwargs _ _ args) as [[|a [|b [|c [|x vs]]]]|]; try discriminate Hs.
    exact (get_release_prs_prefixed _ _ _ _ _ Hs).
Qed.

Lemma registered_tools_answer_with_a_prefix_witness :
  has_status_prefix
    "ERROR: Could not find release tag `v0.0.0` for categorization. Status: 404."
  = true.
Proof.
  apply (registered_tools_answer_with_a_prefix
           Scenario.not_found "get_release_prs" call_get_release_prs
           [("org_name", PStr "hashicorp"); ("repo_name", PStr "vault");
            ("tag_name", PStr "v0.0.0")]); reflexivity.
Defined.

(** X14. When the loop ends, the batches it has submitted were added after
    those submitted before, in order; if it ends with a reply, the reply
    asks for no tool and the call counter has grown by the number of
    batches plus one; if it ends with an exception, the counter has grown
    by the number of batches. *)
Theorem loop_accounting
    (fuel : nat) (w : World) (chat_session : chat) :
  forall (st : state) (response : ModelResponse)
         (st' : state) (out : result ModelResponse),
    handle_tool_call fuel w chat_session st response = Some (st', out) ->
    exists batches,
      sent st' = List.app (sent st) batches
      /\ match out with
         | Ok final =>
             function_calls final = []
             /\ gemini_calls st' = gemini_calls st + List.length batches + 1
         | Raise _ =>
             gemini_calls st' = gemini_calls st + List.length batches
         end.
Proof.
  induction fuel as [|fuel IH]; intros st response st' out H; cbn [handle_tool_call] in H.
  - destruct (function_calls response) eqn:Ec; [|discriminate].
    injection H as <- <-. exists []. cbn. rewrite app_nil_r.
    split; [reflexivity | split; [exact Ec | lia]].
  - destruct (function_calls response) as [|c rest] eqn:Ec.
    + injection H as <- <-. exists []. cbn. rewrite app_nil_r.
      split; [reflexivity | split; [exact Ec | lia]].
    + destruct (run_round w (c :: rest) []) as [tool_results|e].
      * cbn [sent] in H.
        destruct (chat_session (List.app (sent st) [tool_results])) as [response'|e].
        -- apply IH in H. destruct H as [batches [Hsent Hcount]].
           exists (tool_results :: batches). cbn [sent gemini_calls] in *.
           split; [rewrite Hsent, <- app_assoc; reflexivity|].
           destruct out; cbn [List.length]; [destruct Hcount; split; [assumption|]|]; lia.
        -- injection H as <- <-. exists [tool_results]. cbn. split; [reflexivity | lia].
      * injection H as <- <-. exists []. cbn. rewrite app_nil_r.
        split; [reflexivity | lia].
Qed.

Lemma loop_accounting_witness :
  exists batches,
    sent (mkState 3 [[mkPart "get_release_prs"
                        [("output", PStr "ERROR: Could not find release tag `v0.0.0` for categorization. Status: 404.")];
                      mkPart "delete_repository"
                        [("error", PStr "Function delete_repository not found.")]]])
    = List.app (sent (mkState 1 [])) batches
    /\ function_calls Scenario.final_answer = []
       /\ 3 = 1 + List.length batches + 1.
Proof.
  exact (loop_accounting 3 Scenario.not_found Scenario.closing_chat
           (mkState 1 []) (mkModelResponse Scenario.two_calls "")
           (mkState 3 [[mkPart "get_release_prs"
                          [("output", PStr "ERROR: Could not find release tag `v0.0.0` for categorization. Status: 404.")];
                        mkPart "delete_repository"
                          [("error", PStr "Function delete_repository not found.")]]])
           (Ok Scenario.final_answer) eq_refl).
Defined.

(** X15. The loop has no limit on its rounds: against a chat session that
    answers every batch with further requests for tools that return, it
    does not end, however many rounds it is given. *)
Theorem loop_has_no_round_limit (w : World) (chat_session : chat) :
  always_requests w chat_session ->
  forall (fuel : nat) (st : state) (response : ModelResponse),
    function_calls response <> [] ->
    tools_return w (function_calls response) ->
    handle_tool_call fuel w chat_session st response = None.
Proof.
  intros Hchat. induction fuel as [|fuel IH]; intros st response Hne Hret;
    cbn [handle_tool_call].
  - destruct (function_calls response); [contradiction | reflexivity].
  - destruct (run_round_parts w _ Hret []) as [parts [Hrun _]].
    destruct (function_calls response) as [|c rest]; [contradiction|].
    cbn [List.app] in Hrun. rewrite Hrun. cbn [sent].
    destruct (Hchat (List.app (sent st) [parts])) as [response' [Hsend [Hne' Hret']]].
    rewrite Hsend. apply IH; assumption.
Qed.

Lemma two_calls_return : tools_return Scenario.not_found Scenario.two_calls.
Proof.
  apply Forall_cons; [|apply Forall_cons; [|apply Forall_nil]]; intros f Hf.
  - injection Hf as <-. eexists. vm_compute. reflexivity.
  - discriminate Hf.
Qed.

Lemma loop_has_no_round_limit_witness :
  handle_tool_call 25 Scenario.not_found insisting_chat (mkState 1 [])
    (mkModelResponse Scenario.two_calls "")
  = None.
Proof.
  apply (loop_has_no_round_limit Scenario.not_found insisting_chat).
  - intro batches. exists (mkModelResponse Scenario.two_calls "").
    split; [reflexivity | split; [discriminate | exact two_calls_return]].
  - discriminate.
  - exact two_calls_return.
Defined.

(** ** The declarations given to the model *)

Lemma find_all_false {A} (f : A -> bool) (l : list A) :
  (forall x, In x l -> f x = false) -> List.find f l = None.
Proof.
  induction l as [|x r IH]; intro H; [reflexivity|]. cbn [List.find].
  rewrite (H x (or_introl eq_refl)). apply IH. intros y Hy. apply H. now right.
Qed.

Lemma filter_all_false {A} (f : A -> bool) (l : list A) :
  (forall x, In x l -> f x = false) -> filter f l = [].
Proof.
  induction l as [|x r IH]; intro H; [reflexivity|]. cbn [filter].
  rewrite (H x (or_introl eq_refl)). apply IH. intros y Hy. apply H. now right.
Qed.

Lemma has_key_In {A} (k : string) (d : list (string * A)) :
  has_key k d = true <-> In k (map fst d).
Proof.
  unfold has_key. induction d as [|[k' v] r IH]; cbn [lookup map fst In].
  - split; [discriminate | contradiction].
  - destruct (String.eqb_spec k k') as [->|Hn].
    + split; [now left | reflexivity].
    + rewrite IH. split; [now right | intros [E|H]; [now elim Hn | exact H]].
Qed.

(** Keyword arguments bind when every key is a parameter and every
    parameter has its key. *)
Lemma bind_kwargs_ok (fname : string) (names : list string)
    (args : list (string * pyval)) :
  (forall k, In k (map fst args) <-> In k names) ->
  bind_kwargs fname names args
  = Ok (map (fun name => match lookup name args with
                         | Some v => v
                         | None => PNone
                         end) names).
Proof.
  intro Hkeys. unfold bind_kwargs.
  rewrite find_all_false.
  - rewrite filter_all_false; [reflexivity|].
    intros n Hn. apply negb_false_iff, has_key_In, Hkeys, Hn.
  - intros [k v] Hin. apply negb_false_iff, mem_In, Hkeys.
    apply in_map_iff. exists (k, v). split; [reflexivity | exact Hin].
Qed.

(** X16. Every declared tool is registered under its name, declares as
    required exactly the properties it lists, and a call that supplies the
    required arguments, in any order, reaches the function of that name
    with each argument passed to the parameter of the same name. *)
Theorem declared_arguments_reach_the_tool
    (w : World) (d : declaration) (args : list (string * pyval)) :
  In d TOOL_DEFINITION_DICT ->
  (forall k, In k (map fst args) <-> In k (decl_required d)) ->
  map fst (decl_properties d) = decl_required d
  /\ exists f,
       lookup (decl_name d) AVAILABLE_TOOLS = Some f
       /\ f w args = direct_call (decl_name d) w (argument args).
Proof.
  intros Hd Hkeys.
  destruct Hd as [<-|[<-|[<-|[]]]]; cbn [decl_required decl_name decl_properties] in *;
    (split; [reflexivity|]); eexists; (split; [reflexivity|]).
  - unfold call_check_latest_release. rewrite (bind_kwargs_ok _ _ _ Hkeys).
    cbn [bind map]. unfold direct_call, argument. cbn [String.eqb Ascii.eqb Bool.eqb].
    destruct (lookup "org_name" args), (lookup "repo_name" args); reflexivity.
  - unfold call_get_dependency_file. rewrite (bind_kwargs_ok _ _ _ Hkeys).
    cbn [bind map]. unfold direct_call, argument. cbn [String.eqb Ascii.eqb Bool.eqb].
    destruct (lookup "org_name" args), (lookup "repo_name" args),
      (lookup "file_path" args); reflexivity.
  - unfold call_get_release_prs. rewrite (bind_kwargs_ok _ _ _ Hkeys).
    cbn [bind map]. unfold direct_call, argument. cbn [String.eqb Ascii.eqb Bool.eqb].
    destruct (lookup "org_name" args), (lookup "repo_name" args),
      (lookup "tag_name" args); reflexivity.
Qed.

Lemma declared_arguments_reach_the_tool_witness :
  exists f,
    lookup "get_release_prs" AVAILABLE_TOOLS = Some f
    /\ f Scenario.not_found
         [("tag_name", PStr "v0.0.0"); ("repo_name", PStr "vault");
          ("org_name", PStr "hashicorp")]
       = get_release_prs Scenario.not_found "hashicorp" "vault" "v0.0.0".
Proof.
  refine (proj2 (declared_arguments_reach_the_tool
                   Scenario.not_found
                   (mkDeclaration "get_release_prs"
                      [org_name_property; repo_name_property;
                       ("tag_name", ("STRING", "The specific release tag (e.g., 'v1.0.0') to analyze."))]
                      ["org_name"; "repo_name"; "tag_name"])
                   [("tag_name", PStr "v0.0.0"); ("repo_name", PStr "vault");
                    ("org_name", PStr "hashicorp")]
                   _ _)).
  - right. right. left. reflexivity.
  - intro k. cbn. tauto.
Defined.

(** ** The health check and its dashboard *)

(** X17. What the health check returns has one of two shapes.  With the
    status [SUCCESS] it holds the limit, the remaining calls, a reset time
    that is a text, and [used_token], which says whether the request
    carried an [Authorization] header.  Otherwise the status is [ERROR] or
    [TOOL_ERROR], and it holds a message and zero remaining calls. *)
Theorem health_result_shape
    (w : World) (local_time : Z -> result string) (health : list (string * pyval)) :
  check_github_api_health w local_time = Ok health ->
  (lookup "status" health = Some (PStr "SUCCESS")
   /\ has_key "limit" health = true
   /\ has_key "remaining" health = true
   /\ (exists reset_time, lookup "reset_time" health = Some (PStr reset_time))
   /\ lookup "used_token" health
      = Some (PBool (has_key "Authorization" (_get_auth_headers w))))
  \/ (exists status message,
        lookup "status" health = Some (PStr status)
        /\ (status = "ERROR" \/ status = "TOOL_ERROR")
        /\ lookup "message" health = Some (PStr message)
        /\ lookup "remaining" health = Some (PInt 0)).
Proof.
  unfold check_github_api_health, try_except, bind. intro H.
  split_result H; try discriminate H; injection H as <-.
  all: try (right; eexists; eexists;
            split; [reflexivity|]; split; [(now left) || (now right)|];
            split; reflexivity).
  all: left; split; [reflexivity|]; split; [reflexivity|]; split; [reflexivity|];
    (split; [eexists; reflexivity|]).
  all: unfold _get_auth_headers;
    destruct (getenv w "GITHUB_TOKEN") as [t|]; [destruct (String.eqb t "")|];
    reflexivity.
Qed.

Lemma health_result_shape_witness :
  check_github_api_health rate_limit_world utc_clock
  = Ok [("status", PStr "SUCCESS"); ("limit", PInt 5000); ("remaining", PInt 4990);
        ("reset_time", PStr "2024-04-10 12:00:00"); ("used_token", PBool true)]
  /\ (lookup "status"
        [("status", PStr "SUCCESS"); ("limit", PInt 5000); ("remaining", PInt 4990);
         ("reset_time", PStr "2024-04-10 12:00:00"); ("used_token", PBool true)]
      = Some (PStr "SUCCESS")
      \/ exists status message,
           lookup "status"
             [("status", PStr "SUCCESS"); ("limit", PInt 5000);
              ("remaining", PInt 4990);
              ("reset_time", PStr "2024-04-10 12:00:00"); ("used_token", PBool true)]
           = Some (PStr status)
           /\ (status = "ERROR" \/ status = "TOOL_ERROR")
           /\ lookup "message"
                [("status", PStr "SUCCESS"); ("limit", PInt 5000);
                 ("remaining", PInt 4990);
                 ("reset_time", PStr "2024-04-10 12:00:00"); ("used_token", PBool true)]
              = Some (PStr message)
           /\ lookup "remaining"
                [("status", PStr "SUCCESS"); ("limit", PInt 5000);
                 ("remaining", PInt 4990);
                 ("reset_time", PStr "2024-04-10 12:00:00"); ("used_token", PBool true)]
              = Some (PInt 0)).
Proof.
  split; [reflexivity|].
  destruct (health_result_shape rate_limit_world utc_clock _ eq_refl) as [[H _]|H].
  - left. exact H.
  - right. exact H.
Defined.

Lemma health_shape_cases
    (w : World) (local_time : Z -> result string) (health : list (string * pyval)) :
  check_github_api_health w local_time = Ok health ->
  (exists limit remaining reset_time token,
      health = [("status", PStr "SUCCESS"); ("limit", limit);
                ("remaining", remaining); ("reset_time", PStr reset_time);
                ("used_token", PBool token)])
  \/ (exists status message,
        health = [("status", PStr status); ("message", PStr message);
                  ("remaining", PInt 0)]
        /\ (status = "ERROR" \/ status = "TOOL_ERROR")).
Proof.
  unfold check_github_api_health, try_except, bind. intro H.
  split_result H; try discriminate H; injection H as <-.
  all: first [ left; do 4 eexists; reflexivity
             | right; do 2 eexists; split; [reflexivity|]; (now left) || (now right) ].
Qed.

(** X18. The dashboard finds every key it reads in what the health check
    returns: drawn from such a result, whatever it raises was raised by one
    of its [metric] calls, never by the lookup of a key; and for a result
    without the status [SUCCESS] it shows the message of the result in its
    error box, and returns once the metric of the call counter is drawn. *)
Theorem dashboard_reads_what_the_health_check_writes
    (w : World) (local_time : Z -> result string)
    (metric : string -> pyval -> string -> result widget)
    (health : list (string * pyval)) (calls : nat) :
  check_github_api_health w local_time = Ok health ->
  (forall e, display_health_dashboard metric health calls = Raise e ->
             exists label value delta_color,
               metric label value delta_color = Raise e)
  /\ (lookup "status" health <> Some (PStr "SUCCESS") ->
      exists message,
        lookup "message" health = Some (PStr message)
        /\ display_health_dashboard metric health calls
           = (m3 <- metric "Session Calls Made" (PInt (Z.of_nat calls)) "normal" ;;
              Ok [Header "Health Dashboard 🩺";
                  Subheader "GitHub API Status";
                  ErrorBox ("GitHub Health Check Error: " ++ message);
                  Markdown "---";
                  Subheader "Gemini API Usage";
                  m3;
                  Caption "This counter resets on app refresh."])).
Proof.
  intro Hcheck.
  destruct (health_shape_cases w local_time health Hcheck)
    as [[limit [remaining [reset_time [token ->]]]] | [status [message [-> Hstatus]]]].
  - split.
    + intros e H. unfold display_health_dashboard in H.
      cbn [getitem lookup String.eqb Ascii.eqb Bool.eqb bind eq_str] in H.
      destruct (metric "Calls Remaining" remaining _) as [m1|e1] eqn:E1;
        [|injection H as <-; eauto].
      cbn [bind] in H.
      destruct (metric "Total Limit" limit "normal") as [m2|e2] eqn:E2;
        [|injection H as <-; eauto].
      cbn [bind] in H.
      destruct (metric "Session Calls Made" _ "normal") as [m3|e3] eqn:E3;
        [discriminate H | injection H as <-; eauto].
    + intro Hne. exfalso. apply Hne. reflexivity.
  - assert (Hrun : display_health_dashboard metric
                     [("status", PStr status); ("message", PStr message);
                      ("remaining", PInt 0)] calls
                   = (m3 <- metric "Session Calls Made" (PInt (Z.of_nat calls)) "normal" ;;
                      Ok [Header "Health Dashboard 🩺";
                          Subheader "GitHub API Status";
                          ErrorBox ("GitHub Health Check Error: " ++ message);
                          Markdown "---";
                          Subheader "Gemini API Usage";
                          m3;
                          Caption "This counter resets on app refresh."])).
    { destruct Hstatus as [->| ->]; reflexivity. }
    split.
    + intros e H. rewrite Hrun in H.
      destruct (metric "Session Calls Made" _ "normal") as [m3|e3] eqn:E3;
        [discriminate H | injection H as <-; eauto].
    + intros _. exists message. split; [reflexivity | exact Hrun].
Qed.

Lemma dashboard_reads_what_the_health_check_writes_witness :
  exists message,
    lookup "message"
      [("status", PStr "TOOL_ERROR");
       ("message", PStr "Network error during health check: Connection refused");
       ("remaining", PInt 0)]
    = Some (PStr message)
    /\ display_health_dashboard plain_metric
         [("status", PStr "TOOL_ERROR");
          ("message", PStr "Network error during health check: Connection refused");
          ("remaining", PInt 0)] 4
       = (m3 <- plain_metric "Session Calls Made" (PInt (Z.of_nat 4)) "normal" ;;
          Ok [Header "Health Dashboard 🩺";
              Subheader "GitHub API Status";
              ErrorBox ("GitHub Health Check Error: " ++ message);
              Markdown "---";
              Subheader "Gemini API Usage";
              m3;
              Caption "This counter resets on app refresh."]).
Proof.
  apply (proj2 (dashboard_reads_what_the_health_check_writes
                  Scenario.offline utc_clock plain_metric
                  [("status", PStr "TOOL_ERROR");
                   ("message", PStr "Network error during health check: Connection refused");
                   ("remaining", PInt 0)]
                  4 eq_refl)).
  discriminate.
Defined.

(** X19. When the rate-limit answer has no [reset] field, or one that is
    not an integer, the reset time is reported as [N/A] and the clock is
    not consulted: the check succeeds even with a clock that always fails. *)
Theorem reset_time_without_timestamp
    (w : World) (local_time : Z -> result string) (resp : Response)
    (data resources rate_data limit remaining reset_ts : pyval) :
  requests_get w (mkRequest "https://api.github.com/rate_limit"
                            (_get_auth_headers w) None) = Ok resp ->
  status_code resp = 200%Z ->
  json resp = Ok data ->
  get data "resources" (PDict []) = Ok resources ->
  get resources "core" (PDict []) = Ok rate_data ->
  get rate_data "limit" (PStr "N/A") = Ok limit ->
  get rate_data "remaining" (PStr "N/A") = Ok remaining ->
  get rate_data "reset" (PStr "N/A") = Ok reset_ts ->
  int_value reset_ts = None ->
  check_github_api_health w local_time
  = Ok [("status", PStr "SUCCESS"); ("limit", limit); ("remaining", remaining);
        ("reset_time", PStr "N/A");
        ("used_token", PBool (has_key "Authorization" (_get_auth_headers w)))].
Proof.
  intros Hget Hst Hjson Hres Hcore Hlimit Hrem Hreset Hint.
  unfold check_github_api_health. rewrite Hget. cbn [bind try_except].
  rewrite Hst. cbn [Z.eqb Pos.eqb negb]. rewrite Hjson. cbn [bind].
  rewrite Hres. cbn [bind]. rewrite Hcore. cbn [bind].
  rewrite Hlimit. cbn [bind]. rewrite Hrem. cbn [bind].
  rewrite Hreset. cbn [bind]. rewrite Hint. cbn [bind].
  unfold _get_auth_headers.
  destruct (getenv w "GITHUB_TOKEN") as [t|]; [destruct (String.eqb t "")|];
    reflexivity.
Qed.

Lemma reset_time_without_timestamp_witness :
  check_github_api_health bare_world (fun _ => Raise (Exn ValueError "no clock"))
  = Ok [("status", PStr "SUCCESS"); ("limit", PStr "N/A"); ("remaining", PStr "N/A");
        ("reset_time", PStr "N/A");
        ("used_token", PBool (has_key "Authorization" (_get_auth_headers bare_world)))].
Proof.
  apply (reset_time_without_timestamp bare_world _
           (Scenario.ok_json (PDict []))
           (PDict []) (PDict []) (PDict []) (PStr "N/A") (PStr "N/A") (PStr "N/A"));
    reflexivity.
Defined.
